(** * removebg: the Streamlit background remover and cropper (app.py)

    A shallow embedding of [app.py].  The script is glue between four
    external collaborators: Pillow (in-memory images, PNG codec), rembg
    ([remove]), streamlit (widgets, session state, the rerun loop) and
    streamlit_cropper ([st_cropper]).  The script's own code -- session
    state updates, colour parsing, the two [try] blocks, the export
    branch, the widget key and the download name -- is embedded as
    written.  The collaborators are taken as parameters ([Imaging],
    [Services]); module [Pillow] gives a reference model of the Pillow
    operations the compositing step calls. *)

From Stdlib Require Import ZArith Lia Ascii String List.
From stdpp Require Import base option list strings gmap.

Local Open Scope string_scope.
Local Open Scope list_scope.
Local Open Scope Z_scope.

(** ** Exceptions and results *)

(** The exception classes that occur, all below [Exception].
    [UnicodeError] is a subclass of [ValueError];
    [UnidentifiedImageError] is a subclass of [OSError]. *)
Inductive exc_class : Type :=
  | ValueError
  | UnicodeError
  | TypeError
  | AttributeError
  | MemoryError
  | OSError
  | UnidentifiedImageError.

Record exn : Type := Exn { exc_type : exc_class; exc_msg : string }.

#[global] Instance exc_class_eq_dec : EqDecision exc_class.
Proof. solve_decision. Defined.

#[global] Instance exn_eq_dec : EqDecision exn.
Proof. solve_decision. Defined.

(** [isinstance(e, ValueError)], the test made by [except ValueError]. *)
Definition isinstance_ValueError (e : exn) : bool :=
  match exc_type e with
  | ValueError | UnicodeError => true
  | _ => false
  end.

(** [str(e)] for an exception built from one message argument. *)
Definition str_exn (e : exn) : string := exc_msg e.

Inductive result (A : Type) : Type :=
  | Ok (a : A)
  | Raise (e : exn).
Arguments Ok {A} a.
Arguments Raise {A} e.

#[global] Instance result_ret : MRet result := fun A a => Ok a.
#[global] Instance result_bind : MBind result := fun A B f r =>
  match r with
  | Ok a => f a
  | Raise e => Raise e
  end.

(** ** Python string operations used by the script

    A [str] is represented by its UTF-8 bytes.  On ASCII text -- all that
    the colour controls write into the slot -- a byte is a character and
    the operations below are Python's.  On other text they differ: Python
    strips and slices by code point, and [int] also accepts digits and
    spaces outside ASCII.  What is proved below about a slot is proved
    either for ASCII text of a given form, or for a property that holds of
    the bytes and of the code points alike. *)

Module Py.

(** [s.lstrip(chars)] for a one-character [chars]. *)
Fixpoint lstrip (ch : ascii) (s : string) : string :=
  match s with
  | String c s' => if Ascii.eqb c ch then lstrip ch s' else s
  | EmptyString => s
  end.

(** [s[i : j]] for [0 <= i <= j]: out-of-range bounds are clamped. *)
Definition slice (s : string) (i j : nat) : string :=
  String.substring i (j - i) s.

(** Whitespace accepted by [int] around the literal ([Py_ISSPACE]: tab,
    line feed, vertical tab, form feed, carriage return and space). *)
Definition is_space (c : ascii) : bool :=
  let n := nat_of_ascii c in
  ((9 <=? n) && (n <=? 13) || (n =? 32))%nat.

(** Value of a base-16 digit. *)
Definition hex_digit (c : ascii) : option Z :=
  let n := Z.of_nat (nat_of_ascii c) in
  if (48 <=? n) && (n <=? 57) then Some (n - 48)
  else if (65 <=? n) && (n <=? 70) then Some (n - 55)
  else if (97 <=? n) && (n <=? 102) then Some (n - 87)
  else None.

Definition is_underscore (c : ascii) : bool := Ascii.eqb c "_"%char.

(** The digit scanner of [int(s, 16)]: digits with single underscores
    between them.  [seen] tells whether a digit was read, [us] whether the
    previous character was an underscore.  Returns the value and the
    unread rest, or [None] for a malformed run. *)
Fixpoint scan_hex (seen us : bool) (acc : Z) (s : string) : option (Z * string) :=
  match s with
  | EmptyString => if seen && negb us then Some (acc, s) else None
  | String c s' =>
      match hex_digit c with
      | Some d => scan_hex true false (16 * acc + d) s'
      | None =>
          if is_underscore c then
            if seen && negb us then scan_hex seen true acc s' else None
          else if seen && negb us then Some (acc, s) else None
      end
  end.

Fixpoint all_space (s : string) : bool :=
  match s with
  | EmptyString => true
  | String c s' => is_space c && all_space s'
  end.

Fixpoint skip_space (s : string) : string :=
  match s with
  | String c s' => if is_space c then skip_space s' else s
  | EmptyString => s
  end.

Definition invalid_literal (s : string) : exn :=
  Exn ValueError ("invalid literal for int() with base 16: '" +:+ s +:+ "'").

(** [int(s, 16)] on ASCII text: optional surrounding whitespace, an
    optional sign, an optional [0x]/[0X] prefix (which may be followed by
    one underscore), then hexadecimal digits. *)
Definition int16 (s : string) : result Z :=
  let s1 := skip_space s in
  let '(neg, s2) :=
    match s1 with
    | String "-" r => (true, r)
    | String "+" r => (false, r)
    | _ => (false, s1)
    end in
  let s3 :=
    match s2 with
    | String "0" (String "x" r) | String "0" (String "X" r) =>
        match r with
        | String "_" r' => r'
        | _ => r
        end
    | _ => s2
    end in
  match scan_hex false false 0 s3 with
  | Some (v, rest) =>
      if all_space rest then Ok (if neg then - v else v) else Raise (invalid_literal s)
  | None => Raise (invalid_literal s)
  end.

(** [s.rsplit(sep, 1)[0]] for a one-character [sep]: the text before the
    last [sep], or all of [s] when [sep] does not occur.  [rsplit_aux]
    returns the text before the last [sep] of its argument, if any. *)
Fixpoint rsplit_aux (sep : ascii) (s : string) : option string :=
  match s with
  | EmptyString => None
  | String c s' =>
      match rsplit_aux sep s' with
      | Some h => Some (String c h)
      | None => if Ascii.eqb c sep then Some EmptyString else None
      end
  end.

Definition rsplit1_head (sep : ascii) (s : string) : string :=
  match rsplit_aux sep s with
  | Some h => h
  | None => s
  end.

(** [sep in s]. *)
Fixpoint contains (sep : ascii) (s : string) : bool :=
  match s with
  | EmptyString => false
  | String c s' => Ascii.eqb c sep || contains sep s'
  end.

End Py.

(** ** Images *)

(** A decoded image: Pillow's [mode] string, [size] as (width, height) and
    the pixel rows, top to bottom; a pixel is the list of its band values
    ([r; g; b; a] for RGBA, [r; g; b] for RGB, [l; a] for LA, [l] for L;
    for the palette modes see module [Pillow]). *)
Record Image : Type := mkImage {
  im_mode : string;
  im_size : nat * nat;
  im_data : list (list (list Z))
}.

Definition getpixel (im : Image) (x y : nat) : option (list Z) :=
  row ← im_data im !! y; row !! x.

(** ** The user interface written by one pass *)

Inductive ui : Type :=
  | st_info (body : string)
  | st_warning (body : string)
  | st_error (body : string)
  | st_exception (e : exn)
  | st_spinner (text : string)
  | st_header (body : string)
  | st_image (image : Image) (caption : option string)
  | st_cropper_widget (img : Image) (aspect_ratio : option (Z * Z)) (key : string)
  | st_download_button (label : string) (data : list Byte.byte)
      (file_name : string) (mime : string).

(** The script's effects: the elements written so far, then a value or the
    exception that stopped the block. *)
Definition M (A : Type) : Type := (list ui * result A)%type.

#[global] Instance M_ret : MRet M := fun A a => ([], Ok a).
#[global] Instance M_bind : MBind M := fun A B f m =>
  match m with
  | (out, Ok a) => let '(out', r) := f a in (out ++ out', r)
  | (out, Raise e) => (out, Raise e)
  end.

Definition emit (u : ui) : M unit := ([u], Ok tt).
Definition call {A} (r : result A) : M A := ([], r).

(** [try: body  except ValueError as e: handler e]. *)
Definition try_except_ValueError {A} (body : M A) (handler : exn → M A) : M A :=
  match body with
  | (out, Raise e) =>
      if isinstance_ValueError e
      then let '(out', r) := handler e in (out ++ out', r)
      else (out, Raise e)
  | done => done
  end.

(** ** The external collaborators *)

(** Pillow's operations on in-memory images, as the script calls them:
    [Image.new(mode, size, color)], [self.paste(im, box, mask)] (returning
    the updated [self]; a raised exception leaves [self] as it was) and
    [im.convert(mode)]. *)
Record Imaging : Type := {
  Image_new : string → nat * nat → Z * Z * Z → result Image;
  Image_paste : Image → Image → Z * Z → option Image → result Image;
  Image_convert : Image → string → result Image
}.

(** The remaining collaborators: [Image.open(io.BytesIO(b))], rembg's
    [remove], [im.save(buf, format=f)] followed by [buf.getvalue()], and
    [st_cropper(img, realtime_update=True, box_color="blue",
    aspect_ratio=a, key=k)]. *)
Record Services : Type := {
  Image_open : list Byte.byte → result Image;
  rembg_remove : Image → result Image;
  Image_save : Image → string → result (list Byte.byte);
  st_cropper : Image → option (Z * Z) → string → result (option Image)
}.

(** ** Session state and sidebar controls (lines 18-62) *)

Abbreviation session_state := (gmap string string).

Record UploadedFile : Type := {
  name : string;
  getvalue : list Byte.byte
}.

Inductive CropOption : Type := NoCrop | Square | Passport.

(** The three entries of the selectbox. *)
Definition option_label (o : CropOption) : string :=
  match o with
  | NoCrop => "No Crop"
  | Square => "1:1 (Square)"
  | Passport => "35:45 (Passport)"
  end.

(** What the widgets return in one run of the script. *)
Record Widgets : Type := {
  uploaded_file : option UploadedFile;
  red_button : bool;
  blue_button : bool;
  white_button : bool;
  crop_aspect_ratio_option : CropOption
}.

(** Lines 19-20. *)
Definition init_session_state (ss : session_state) : session_state :=
  match ss !! "selected_color" with
  | Some _ => ss
  | None => <["selected_color" := "#FFFFFF"]> ss
  end.

(** Lines 33-38. *)
Definition preset_buttons (w : Widgets) (ss : session_state) : session_state :=
  let ss := if red_button w then <["selected_color" := "#FF0000"]> ss else ss in
  let ss := if blue_button w then <["selected_color" := "#0000FF"]> ss else ss in
  let ss := if white_button w then <["selected_color" := "#FFFFFF"]> ss else ss in
  ss.

(** Lines 41-42: the picker's [on_change] callback. *)
Definition update_color_from_picker (ss : session_state) : result session_state :=
  match ss !! "color_picker_value" with
  | Some v => Ok (<["selected_color" := v]> ss)
  | None =>
      Raise (Exn AttributeError
               "st.session_state has no attribute 'color_picker_value'")
  end.

(** Lines 45-50, [st.sidebar.color_picker(label, value, key=...)]: the
    widget registers its key in the session state when it is absent, with
    [value] as its content, and returns the content of its key.  It writes
    no other key. *)
Definition color_picker (value key : string) (ss : session_state)
  : session_state * string :=
  match ss !! key with
  | Some v => (ss, v)
  | None => (<[key := value]> ss, value)
  end.

(** Lines 58-62. *)
Definition aspect_ratio_of (crop_option : string) : option (Z * Z) :=
  if String.eqb crop_option "1:1 (Square)" then Some (1, 1)
  else if String.eqb crop_option "35:45 (Passport)" then Some (35, 45)
  else None.

(** Lines 18-62: the session state after the sidebar has been built. *)
Definition sidebar (w : Widgets) (ss : session_state) : session_state :=
  let ss := init_session_state ss in
  let ss := preset_buttons w ss in
  let '(ss, bg_color) :=
    color_picker (default "" (ss !! "selected_color")) "color_picker_value" ss in
  ss.

(** ** The processing pass (lines 64-167) *)

(** Lines 83-84: the colour slot read and parsed into an RGB triple. *)
Definition read_color (ss : session_state) : result (Z * Z * Z) :=
  selected_color ←
    match ss !! "selected_color" with
    | Some c => Ok c
    | None =>
        Raise (Exn AttributeError
                 "st.session_state has no attribute 'selected_color'")
    end;
  let bg_color_hex := Py.lstrip "#" selected_color in
  r ← Py.int16 (Py.slice bg_color_hex 0 2);
  g ← Py.int16 (Py.slice bg_color_hex 2 4);
  b ← Py.int16 (Py.slice bg_color_hex 4 6);
  Ok (r, g, b).

(** Line 113. *)
Definition cropper_key (file_name crop_option : string) : string :=
  "cropper_" +:+ file_name +:+ "_" +:+ crop_option.

(** Lines 142-146.  [rsplit] on a [str] cannot raise, so the bare
    [except] branch (the name "image") is never taken. *)
Definition download_filename (file_name : string) : string :=
  let original_filename := Py.rsplit1_head "." file_name in
  original_filename +:+ "_processed.png".

Definition error_header : string := "❌ An error occurred during processing:".
Definition error_hint : string :=
  "Please ensure the uploaded file is a valid image. Some images might fail background removal or processing.".

Section Script.

Context (pil : Imaging) (svc : Services).

(** Lines 85-92: the compositing step. *)
Definition applyBackground (output_image_nobg : Image) (bg_color_rgb : Z * Z * Z)
  : M Image :=
  background ← call (Image_new pil "RGB" (im_size output_image_nobg) bg_color_rgb);
  try_except_ValueError
    (call (Image_paste pil background output_image_nobg (0, 0) (Some output_image_nobg)))
    (λ e,
      emit (st_warning ("Pasting with alpha mask failed (" +:+ str_exn e
                          +:+ "), attempting direct paste."));;
      call (Image_paste pil background output_image_nobg (0, 0) None)).

(** Lines 130-140: the export step.  Returns the image that was saved and
    the bytes of the buffer. *)
Definition finalizeForExport (final_image : Image) : result (Image * list Byte.byte) :=
  if String.eqb (im_mode final_image) "RGBA" then
    byte_im ← Image_save svc final_image "PNG";
    Ok (final_image, byte_im)
  else
    final_image ←
      (if negb (String.eqb (im_mode final_image) "RGB")
       then Image_convert pil final_image "RGB"
       else Ok final_image);
    byte_im ← Image_save svc final_image "PNG";
    Ok (final_image, byte_im).

(** Lines 101-121: column 1, the cropper or the preview. *)
Definition column1 (f : UploadedFile) (crop_option : string)
    (img_ready_for_crop : Image) : M (option Image) :=
  if negb (String.eqb crop_option "No Crop") then
    emit (st_header "Crop Area (Adjust Box)");;
    emit (st_info "Adjust the blue box. The result appears on the right.");;
    let aspect_ratio := aspect_ratio_of crop_option in
    let key := cropper_key (name f) crop_option in
    emit (st_cropper_widget img_ready_for_crop aspect_ratio key);;
    call (st_cropper svc img_ready_for_crop aspect_ratio key)
  else
    emit (st_header "Image Preview (No Crop)");;
    emit (st_info "Cropping is disabled. Result is shown on the right.");;
    emit (st_image img_ready_for_crop None);;
    mret (Some img_ready_for_crop).

(** Lines 124-156: column 2, the result and the download button.  The
    test [if final_image:] holds for every image and fails for [None]. *)
Definition column2 (f : UploadedFile) (final_image : option Image) : M unit :=
  emit (st_header "Final Result");;
  match final_image with
  | Some final_image =>
      emit (st_image final_image (Some "Processed Output"));;
      '(final_image, byte_im) ← call (finalizeForExport final_image);
      emit (st_download_button "4. Download Final Image" byte_im
              (download_filename (name f)) "image/png")
  | None => emit (st_warning "Waiting for image processing or cropping...")
  end.

(** Lines 67-156: the body of the outer [try]. *)
Definition processing (ss : session_state) (f : UploadedFile) (crop_option : string)
  : M unit :=
  let input_bytes := getvalue f in
  input_image ← call (Image_open svc input_bytes);
  emit (st_spinner "Removing background...");;
  output_image_nobg ← call (rembg_remove svc input_image);
  bg_color_rgb ← call (read_color ss);
  background ← applyBackground output_image_nobg bg_color_rgb;
  let img_ready_for_crop := background in
  final_image ← column1 f crop_option img_ready_for_crop;
  column2 f final_image.

(** Lines 158-164: the [except Exception] handler. *)
Definition report_error (e : exn) : list ui :=
  [ st_error error_header; st_error (str_exn e); st_exception e;
    st_error error_hint ].

(** Lines 65-167: the main area of one pass. *)
Definition main_area (ss : session_state) (file : option UploadedFile)
    (crop_option : string) : list ui :=
  match file with
  | Some f =>
      match processing ss f crop_option with
      | (out, Ok _) => out
      | (out, Raise e) => out ++ report_error e
      end
  | None => [ st_info "☝️ Upload an image using the sidebar controls to get started." ]
  end.

(** One run of the script, top to bottom. *)
Definition script (w : Widgets) (ss : session_state) : session_state * list ui :=
  let ss := sidebar w ss in
  (ss, main_area ss (uploaded_file w) (option_label (crop_aspect_ratio_option w))).

End Script.

(** ** Streamlit's rerun loop *)

(** One user interaction.  [Refresh] stands for those that touch no colour
    control: the first load, an upload, a change of the crop ratio, a drag
    of the crop box. *)
Inductive interaction : Type :=
  | Refresh
  | ClickRed
  | ClickBlue
  | ClickWhite
  | PickColor (c : string).

(** A button returns [True] only in the run its click triggered. *)
Definition widgets_of (i : interaction) (file : option UploadedFile)
    (crop : CropOption) : Widgets :=
  {| uploaded_file := file;
     red_button := match i with ClickRed => true | _ => false end;
     blue_button := match i with ClickBlue => true | _ => false end;
     white_button := match i with ClickWhite => true | _ => false end;
     crop_aspect_ratio_option := crop |}.

(** Streamlit handles an interaction by storing the new widget value under
    the widget's key, calling the widget's [on_change] callback, and then
    running the script from the top. *)
Definition rerun (pil : Imaging) (svc : Services) (i : interaction)
    (file : option UploadedFile) (crop : CropOption) (ss : session_state)
  : session_state * list ui :=
  match i with
  | PickColor c =>
      match update_color_from_picker (<["color_picker_value" := c]> ss) with
      | Ok ss' => script pil svc (widgets_of i file crop) ss'
      | Raise e => (ss, [st_exception e])
      end
  | _ => script pil svc (widgets_of i file crop) ss
  end.

(** ** A reference model of Pillow's in-memory operations

    The model follows Pillow's sources: [Image.paste] in Image.py,
    [ImagingPaste] in Paste.c, the converters of Convert.c and [getink] in
    _imaging.c.  It covers the calls the script makes -- a new RGB image,
    a paste onto it, a conversion to RGB -- for images of the 8-bit modes
    L, LA, RGB and RGBA and of the palette modes P and PA.  A pixel of a
    palette image is given by the colour its index selects in the palette
    ([r; g; b] for P, [r; g; b; a] for PA).  Other modes (1, CMYK, RGBa,
    La, I, F, ...) and calls the script never makes (a paste onto, or a
    conversion to, a palette image) are outside the model: they are
    answered by the exception [unrecognized_mode], which says nothing
    about Pillow.  Every result below is about images of the modes
    covered. *)
Module Pillow.

Inductive pmode : Type := L | LA | RGB | RGBA.

#[global] Instance pmode_eq_dec : EqDecision pmode.
Proof. solve_decision. Defined.

Definition mode_of_name (s : string) : option pmode :=
  if String.eqb s "L" then Some L
  else if String.eqb s "LA" then Some LA
  else if String.eqb s "RGB" then Some RGB
  else if String.eqb s "RGBA" then Some RGBA
  else None.

Definition bands (m : pmode) : nat :=
  match m with L => 1 | LA => 2 | RGB => 3 | RGBA => 4 end%nat.

(** The palette modes, and the mode of the colours a palette selects. *)
Inductive palette_mode : Type := P | PA.

Definition palette_mode_of_name (s : string) : option palette_mode :=
  if String.eqb s "P" then Some P
  else if String.eqb s "PA" then Some PA
  else None.

Definition resolved_name (p : palette_mode) : string :=
  match p with P => "RGB" | PA => "RGBA" end.

(** A palette image as the RGB or RGBA image of the colours selected. *)
Definition resolve (im : Image) : Image :=
  match palette_mode_of_name (im_mode im) with
  | Some p => mkImage (resolved_name p) (im_size im) (im_data im)
  | None => im
  end.

Definition unrecognized_mode : exn := Exn ValueError "unrecognized image mode".

(** [CLIP8]. *)
Definition clip8 (v : Z) : Z := if v <=? 0 then 0 else if 255 <=? v then 255 else v.

(** [Image.new(mode, size, (r, g, b))]. *)
Definition new (mode : string) (size : nat * nat) (color : Z * Z * Z) : result Image :=
  let '(r, g, b) := color in
  let fill px := mkImage mode size (replicate (snd size) (replicate (fst size) px)) in
  match mode_of_name mode with
  | Some RGB => Ok (fill [clip8 r; clip8 g; clip8 b])
  | Some RGBA => Ok (fill [clip8 r; clip8 g; clip8 b; 255])
  | Some L => Raise (Exn TypeError "color must be int or single-element tuple")
  | Some LA => Raise (Exn TypeError "color must be int, or tuple of one or two elements")
  | None =>
      match palette_mode_of_name mode with
      | Some P => Ok (fill [clip8 r; clip8 g; clip8 b])
      | Some PA =>
          Raise (Exn TypeError "color must be int, or tuple of one or two elements")
      | None => Raise unrecognized_mode
      end
  end.

Definition band (i : nat) (px : list Z) : Z := nth i px 0.

(** [L24(rgb) >> 16], the ITU-R 601-2 luma of Convert.c. *)
Definition luma (r g b : Z) : Z :=
  Z.shiftr (r * 19595 + g * 38470 + b * 7471 + 32768) 16.

Definition rgb_of (m : pmode) (px : list Z) : list Z :=
  match m with
  | L | LA => [band 0 px; band 0 px; band 0 px]
  | RGB | RGBA => [band 0 px; band 1 px; band 2 px]
  end.

Definition alpha_of (m : pmode) (px : list Z) : Z :=
  match m with
  | L | RGB => 255
  | LA => band 1 px
  | RGBA => band 3 px
  end.

Definition luma_of (m : pmode) (px : list Z) : Z :=
  match m with
  | L | LA => band 0 px
  | RGB | RGBA => luma (band 0 px) (band 1 px) (band 2 px)
  end.

Definition convert_pixel (src dst : pmode) (px : list Z) : list Z :=
  match dst with
  | L => [luma_of src px]
  | LA => [luma_of src px; alpha_of src px]
  | RGB => rgb_of src px
  | RGBA => rgb_of src px ++ [alpha_of src px]
  end.

(** [im.convert(mode)] between the modes L, LA, RGB and RGBA; converting
    to the image's own mode copies it. *)
Definition convert_known (im : Image) (mode : string) : result Image :=
  match mode_of_name (im_mode im), mode_of_name mode with
  | Some src, Some dst =>
      if decide (src = dst) then Ok im
      else Ok (mkImage mode (im_size im)
                 (map (map (convert_pixel src dst)) (im_data im)))
  | _, _ => Raise unrecognized_mode
  end.

(** [im.convert(mode)]: a palette image is converted through the colours
    of its palette, its alpha band (PA) taken along. *)
Definition convert (im : Image) (mode : string) : result Image :=
  match palette_mode_of_name (im_mode im) with
  | Some _ =>
      if String.eqb (im_mode im) mode then Ok im
      else
        converted ← convert_known (resolve im) mode;
        Ok (mkImage mode (im_size im) (im_data converted))
  | None => convert_known im mode
  end.

(** [DIV255] and [BLEND] of ImagingUtils.h. *)
Definition div255 (a : Z) : Z :=
  let tmp := a + 128 in Z.shiftr (Z.shiftr tmp 8 + tmp) 8.

Definition blend (mask in1 in2 : Z) : Z := div255 (in1 * (255 - mask) + in2 * mask).

(** The mask value a mask image gives at a pixel: its only band for L, its
    alpha band for LA and RGBA; an RGB image is no mask. *)
Definition mask_value (m : pmode) (px : list Z) : option Z :=
  match m with
  | L => Some (band 0 px)
  | LA => Some (band 1 px)
  | RGBA => Some (band 3 px)
  | RGB => None
  end.

(** A source pixel as written into a destination of mode [dst]: RGBA and
    LA sources share the four-byte layout of an RGB destination, so their
    first three bytes are taken as they are. *)
Definition as_stored (dst src : pmode) (px : list Z) : list Z :=
  if decide (dst = src) then px else rgb_of src px.

(** The pixel of [im] under destination position [(x, y)] when [im] is
    placed with its top-left corner at [box]. *)
Definition source_pixel (im : Image) (box : Z * Z) (x y : nat) : option (list Z) :=
  let sx := Z.of_nat x - fst box in
  let sy := Z.of_nat y - snd box in
  if (0 <=? sx) && (0 <=? sy) then getpixel im (Z.to_nat sx) (Z.to_nat sy) else None.

(** [self.paste(im, box, mask)] for a two-item [box] and an [im] of mode
    L, LA, RGB or RGBA.  Python side: [im] is converted to [self]'s mode
    unless the modes agree or [self] is RGB and [im] is LA or RGBA.
    C side: the mask must be as large as [im] and of a mask mode (L, LA,
    RGBA; not RGB, P or PA); inside the region each band is blended with
    the mask value, or copied when there is no mask; outside it [self] is
    kept. *)
Definition paste_known (self im : Image) (box : Z * Z) (mask : option Image)
  : result Image :=
  match mode_of_name (im_mode self), mode_of_name (im_mode im) with
  | Some dst, Some src =>
      im ←
        (if decide (dst = src) then Ok im
         else match dst, src with
              | RGB, LA | RGB, RGBA => Ok im
              | _, _ => convert im (im_mode self)
              end);
      let src := default src (mode_of_name (im_mode im)) in
      let region (f : list Z → list Z → nat → nat → list Z) :=
        mkImage (im_mode self) (im_size self)
          (imap (λ y row, imap (λ x d,
             match source_pixel im box x y with
             | Some s => f d (as_stored dst src s) x y
             | None => d
             end) row) (im_data self)) in
      match mask with
      | None => Ok (region (λ d s _ _, s))
      | Some mk =>
          match mode_of_name (im_mode mk) with
          | Some mm =>
              if negb (bool_decide (im_size mk = im_size im))
              then Raise (Exn ValueError "images do not match")
              else match mm with
              | RGB => Raise (Exn ValueError "bad transparency mask")
              | _ =>
                  Ok (region (λ d s x y,
                    match source_pixel mk box x y ≫= mask_value mm with
                    | Some a => zip_with (blend a) d s
                    | None => d
                    end))
              end
          | None =>
              match palette_mode_of_name (im_mode mk) with
              | Some _ =>
                  if negb (bool_decide (im_size mk = im_size im))
                  then Raise (Exn ValueError "images do not match")
                  else Raise (Exn ValueError "bad transparency mask")
              | None => Raise unrecognized_mode
              end
          end
      end
  | _, _ => Raise unrecognized_mode
  end.

(** [self.paste(im, box, mask)]: an [im] of a palette mode is first
    converted to [self]'s mode, as its mode is none that is pasted as it
    is. *)
Definition paste (self im : Image) (box : Z * Z) (mask : option Image)
  : result Image :=
  match palette_mode_of_name (im_mode im) with
  | Some _ =>
      im ← (if String.eqb (im_mode self) (im_mode im) then Ok im
            else convert im (im_mode self));
      paste_known self im box mask
  | None => paste_known self im box mask
  end.

Definition imaging : Imaging :=
  {| Image_new := new; Image_paste := paste; Image_convert := convert |}.

(** A well-formed image: a known mode, [height] rows of [width] pixels,
    each pixel with the bands of the mode, each band a byte. *)
Definition wf_pixel (m : pmode) (px : list Z) : Prop :=
  length px = bands m ∧ Forall (λ v, 0 ≤ v ≤ 255) px.

Definition wf_image (im : Image) : Prop :=
  ∃ m, mode_of_name (im_mode im) = Some m
     ∧ length (im_data im) = snd (im_size im)
     ∧ Forall (λ row, length row = fst (im_size im) ∧ Forall (wf_pixel m) row)
         (im_data im).

End Pillow.

(** ** Observations on what a pass wrote *)

Record Download : Type := {
  dl_label : string;
  dl_data : list Byte.byte;
  dl_file_name : string;
  dl_mime : string
}.

Definition downloads (out : list ui) : list Download :=
  omap (λ u, match u with
             | st_download_button l d f m => Some (Build_Download l d f m)
             | _ => None
             end) out.

Definition cropper_keys (out : list ui) : list string :=
  omap (λ u, match u with
             | st_cropper_widget _ _ k => Some k
             | _ => None
             end) out.

Definition warnings (out : list ui) : list string :=
  omap (λ u, match u with st_warning m => Some m | _ => None end) out.

(** The warning of line 89. *)
Definition fallback_warning (e : exn) : ui :=
  st_warning ("Pasting with alpha mask failed (" +:+ str_exn e
                +:+ "), attempting direct paste.").

(** The elements column 1 writes when cropping is off. *)
Definition preview (img : Image) : list ui :=
  [ st_header "Image Preview (No Crop)";
    st_info "Cropping is disabled. Result is shown on the right.";
    st_image img None ].

(** The elements column 2 writes for a final image saved as [byte_im]. *)
Definition result_column (f : UploadedFile) (final_image : Image)
    (byte_im : list Byte.byte) : list ui :=
  [ st_header "Final Result";
    st_image final_image (Some "Processed Output");
    st_download_button "4. Download Final Image" byte_im
      (download_filename (name f)) "image/png" ].

(** ** Vocabulary of the specification *)

(** The three colour presets and the interaction of clicking one. *)
Inductive preset : Type := Red | Blue | White.

Definition preset_hex (p : preset) : string :=
  match p with
  | Red => "#FF0000"
  | Blue => "#0000FF"
  | White => "#FFFFFF"
  end.

Definition click (p : preset) : interaction :=
  match p with
  | Red => ClickRed
  | Blue => ClickBlue
  | White => ClickWhite
  end.

(** The characters that are hexadecimal digits. *)
Definition hex_chars : list ascii :=
  [ "0"; "1"; "2"; "3"; "4"; "5"; "6"; "7"; "8"; "9";
    "A"; "B"; "C"; "D"; "E"; "F"; "a"; "b"; "c"; "d"; "e"; "f" ]%char.

Definition is_hex_digit (c : ascii) : bool :=
  match Py.hex_digit c with Some _ => true | None => false end.

(** A 24-bit colour as the colour widgets write it: [#] and six
    hexadecimal digits. *)
Definition is_hex_color (s : string) : bool :=
  match s with
  | String "#" (String c1 (String c2 (String c3 (String c4 (String c5
      (String c6 EmptyString)))))) =>
      forallb is_hex_digit [c1; c2; c3; c4; c5; c6]
  | _ => false
  end.

(** The colour slot holds a valid colour. *)
Definition color_invariant (ss : session_state) : Prop :=
  ∃ c, ss !! "selected_color" = Some c ∧ is_hex_color c = true.

(** An interaction as the widgets can produce it: the picker delivers a
    valid colour. *)
Definition well_formed_interaction (i : interaction) : Prop :=
  match i with
  | PickColor c => is_hex_color c = true
  | _ => True
  end.

(** The Pillow modes that carry a transparency band. *)
Definition has_transparency_channel (im : Image) : bool :=
  bool_decide (im_mode im ∈ ["LA"; "La"; "PA"; "RGBA"; "RGBa"]).

(** The rows left by a masked paste, at the origin, of an image [fg] of
    mode [m] onto an RGB image [bg]. *)
Definition composite_rows (m : Pillow.pmode) (bg fg : Image) : list (list (list Z)) :=
  imap (λ y row, imap (λ x d,
    match getpixel fg x y with
    | Some s => zip_with (Pillow.blend (Pillow.alpha_of m s)) d (Pillow.rgb_of m s)
    | None => d
    end) row) (im_data bg).

(** Decoding the upload, background removal or compositing (lines 83-92,
    with its own recovery) raises [e]. *)
Definition step_raises (pil : Imaging) (svc : Services) (ss : session_state)
    (f : UploadedFile) (e : exn) : Prop :=
  Image_open svc (getvalue f) = Raise e
  ∨ ∃ input, Image_open svc (getvalue f) = Ok input
      ∧ (rembg_remove svc input = Raise e
         ∨ ∃ fg, rembg_remove svc input = Ok fg
             ∧ (read_color ss = Raise e
                ∨ ∃ rgb shown, read_color ss = Ok rgb
                    ∧ applyBackground pil fg rgb = (shown, Raise e))).

(** Contracts of the external codec and converter: a PNG written from an
    RGB or RGBA image decodes to that image, and a conversion yields the
    requested mode at the same size. *)
Definition png_lossless (svc : Services) : Prop :=
  ∀ im b, im_mode im = "RGB" ∨ im_mode im = "RGBA" →
    Image_save svc im "PNG" = Ok b → Image_open svc b = Ok im.

Definition convert_contract (pil : Imaging) : Prop :=
  ∀ im mode im', Image_convert pil im mode = Ok im' →
    im_mode im' = mode ∧ im_size im' = im_size im.

(** ** Sample images and stand-in collaborators for the examples *)

#[global] Instance byte_eq_dec : EqDecision Byte.byte := Byte.byte_eq_dec.

#[global] Instance Image_eq_dec : EqDecision Image.
Proof. solve_decision. Defined.

Module Demo.

(** A 3 x 1 cut-out: an opaque, a transparent and a half-transparent pixel. *)
Definition cutout : Image :=
  mkImage "RGBA" (3, 1)%nat [[[10; 20; 30; 255]; [10; 20; 30; 0]; [200; 100; 0; 128]]].

(** The cut-out over white and over red. *)
Definition on_white : Image :=
  mkImage "RGB" (3, 1)%nat [[[10; 20; 30]; [255; 255; 255]; [227; 177; 127]]].

Definition on_red : Image :=
  mkImage "RGB" (3, 1)%nat [[[10; 20; 30]; [255; 0; 0]; [227; 50; 0]]].

(** An image without alpha, and a grey image with alpha. *)
Definition opaque : Image :=
  mkImage "RGB" (2, 1)%nat [[[10; 20; 30]; [1; 2; 3]]].

Definition grey_alpha : Image :=
  mkImage "LA" (2, 1)%nat [[[10; 255]; [100; 0]]].

Definition grey_as_rgb : Image :=
  mkImage "RGB" (2, 1)%nat [[[10; 10; 10]; [100; 100; 100]]].

(** The decoded upload. *)
Definition snapshot : Image :=
  mkImage "RGB" (3, 1)%nat [[[10; 20; 30]; [90; 90; 90]; [200; 100; 0]]].

(** A palette image with alpha: an opaque and a transparent pixel, given
    by the colours their indices select, and the same colours as RGB. *)
Definition indexed : Image :=
  mkImage "PA" (2, 1)%nat [[[200; 100; 0; 255]; [10; 20; 30; 0]]].

Definition indexed_colors : Image :=
  mkImage "RGB" (2, 1)%nat [[[200; 100; 0]; [10; 20; 30]]].

Definition photo_bytes : list Byte.byte := [Byte.xff; Byte.xd8; Byte.xff; Byte.xe0].

Definition photo : UploadedFile := {| name := "photo.jpg"; getvalue := photo_bytes |}.

Definition png (n : Byte.byte) : list Byte.byte :=
  [Byte.x89; Byte.x50; Byte.x4e; Byte.x47; n].

(** The files of the examples and the images they hold. *)
Definition files : list (Image * list Byte.byte) :=
  [ (snapshot, photo_bytes);
    (opaque, png Byte.x05);
    (on_white, png Byte.x01);
    (on_red, png Byte.x02);
    (grey_as_rgb, png Byte.x03);
    (cutout, png Byte.x04) ].

(** Stand-ins for the external services: a codec that knows the files
    above, a background remover that returns [removed] for every image,
    and a crop widget whose result is [cropped]. *)
Definition services (removed : Image) (cropped : option Image) : Services :=
  {| Image_open := λ b,
       match find (λ p, bool_decide (p.2 = b)) files with
       | Some p => Ok p.1
       | None => Raise (Exn UnidentifiedImageError "cannot identify image file")
       end;
     rembg_remove := λ _, Ok removed;
     Image_save := λ im _,
       match find (λ p, bool_decide (p.1 = im)) files with
       | Some p => Ok p.2
       | None => Raise (Exn OSError "encoder error")
       end;
     st_cropper := λ _ _ _, Ok cropped |}.

(** Pillow short of memory: a paste with a mask raises [MemoryError], a
    paste without one goes through. *)
Definition exhausted : Imaging :=
  {| Image_new := Pillow.new;
     Image_paste := λ self im box mask,
       match mask with
       | Some _ => Raise (Exn MemoryError "")
       | None => Pillow.paste self im box None
       end;
     Image_convert := Pillow.convert |}.

(** A red background for the cut-out. *)
Definition red_background : Image :=
  mkImage "RGB" (3, 1)%nat [[[255; 0; 0]; [255; 0; 0]; [255; 0; 0]]].

Definition white_state : session_state := {[ "selected_color" := "#FFFFFF" ]}.
Definition red_state : session_state := {[ "selected_color" := "#FF0000" ]}.

End Demo.

(** ** Sessions and further observations *)

(** The interactions of a session with the upload and the crop option in
    force at each of them, handled one after the other. *)
Fixpoint run_session (pil : Imaging) (svc : Services)
    (steps : list (interaction * option UploadedFile * CropOption))
    (ss : session_state) : session_state :=
  match steps with
  | [] => ss
  | (i, file, crop) :: rest =>
      run_session pil svc rest (rerun pil svc i file crop ss).1
  end.

(** The colour an interaction writes, if it is one of a colour control. *)
Definition color_written (i : interaction) : option string :=
  match i with
  | Refresh => None
  | ClickRed => Some "#FF0000"
  | ClickBlue => Some "#0000FF"
  | ClickWhite => Some "#FFFFFF"
  | PickColor c => Some c
  end.

(** The colour written by the last colour interaction of a session. *)
Fixpoint last_color_written
    (steps : list (interaction * option UploadedFile * CropOption)) : option string :=
  match steps with
  | [] => None
  | (i, _, _) :: rest =>
      match last_color_written rest with
      | Some c => Some c
      | None => color_written i
      end
  end.

(** The crop widgets a pass made, with their arguments. *)
Definition cropper_widgets (out : list ui) : list (Image * option (Z * Z) * string) :=
  omap (λ u, match u with
             | st_cropper_widget img a k => Some (img, a, k)
             | _ => None
             end) out.

(** The tracebacks a pass showed. *)
Definition tracebacks (out : list ui) : list exn :=
  omap (λ u, match u with st_exception e => Some e | _ => None end) out.

(** The aspect ratio that belongs to a crop option. *)
Definition option_ratio (o : CropOption) : option (Z * Z) :=
  match o with
  | NoCrop => None
  | Square => Some (1, 1)
  | Passport => Some (35, 45)
  end.

(** The image made by filling the foreground's size with a colour and
    pasting the foreground, of mode [m], with its alpha band as mask. *)
Definition composite_image (m : Pillow.pmode) (fg : Image) (rgb : Z * Z * Z) : Image :=
  let '(r, g, b) := rgb in
  let bg := mkImage "RGB" (im_size fg)
              (replicate (snd (im_size fg)) (replicate (fst (im_size fg)) [r; g; b])) in
  mkImage "RGB" (im_size fg) (composite_rows m bg fg).

(** * Properties *)

(** ** Arithmetic of the blend *)

Section BlendArithmetic.

Import Pillow.

(** [DIV255] rounds the quotient by 255 to the nearest integer. *)
Lemma div255_nearest (v : Z) :
  0 ≤ v ≤ 65025 → div255 v = (v + 127) / 255.
Proof.
  intros Hv. unfold div255.
  rewrite !Z.shiftr_div_pow2 by lia.
  change (2 ^ 8) with 256.
  Z.div_mod_to_equations. lia.
Qed.

Lemma blend_arg_range (a d s : Z) :
  0 ≤ a ≤ 255 → 0 ≤ d ≤ 255 → 0 ≤ s ≤ 255 →
  0 ≤ d * (255 - a) + s * a ≤ 65025.
Proof. intros. nia. Qed.

(** A fully opaque mask value copies the source band. *)
Lemma blend_opaque (d s : Z) : 0 ≤ s ≤ 255 → blend 255 d s = s.
Proof.
  intros Hs. unfold blend.
  replace (d * (255 - 255) + s * 255) with (s * 255) by lia.
  rewrite div255_nearest by lia.
  Z.div_mod_to_equations. lia.
Qed.

(** A fully transparent mask value keeps the destination band. *)
Lemma blend_transparent (d s : Z) : 0 ≤ d ≤ 255 → blend 0 d s = d.
Proof.
  intros Hd. unfold blend.
  replace (d * (255 - 0) + s * 0) with (d * 255) by lia.
  rewrite div255_nearest by lia.
  Z.div_mod_to_equations. lia.
Qed.

(** In between, the band is the weighted mean of destination and source
    with weights [255 - a] and [a], rounded to the nearest integer. *)
Lemma blend_proportional (a d s : Z) :
  0 ≤ a ≤ 255 → 0 ≤ d ≤ 255 → 0 ≤ s ≤ 255 →
  -127 ≤ 255 * blend a d s - (d * (255 - a) + s * a) ≤ 127.
Proof.
  intros Ha Hd Hs. unfold blend.
  pose proof (blend_arg_range a d s Ha Hd Hs) as Hv.
  rewrite div255_nearest by done.
  generalize dependent (d * (255 - a) + s * a). intros v Hv.
  Z.div_mod_to_equations. lia.
Qed.

Lemma blend_range (a d s : Z) :
  0 ≤ a ≤ 255 → 0 ≤ d ≤ 255 → 0 ≤ s ≤ 255 → 0 ≤ blend a d s ≤ 255.
Proof.
  intros Ha Hd Hs. unfold blend.
  pose proof (blend_arg_range a d s Ha Hd Hs) as Hv.
  rewrite div255_nearest by done.
  generalize dependent (d * (255 - a) + s * a). intros v Hv.
  Z.div_mod_to_equations. lia.
Qed.

Lemma clip8_id (v : Z) : 0 ≤ v ≤ 255 → clip8 v = v.
Proof. intros Hv. unfold clip8. repeat case_match; lia. Qed.

End BlendArithmetic.

(** ** The compositing step on the Pillow model *)

Section Compositing.

Import Pillow.

Lemma source_pixel_origin (im : Image) (x y : nat) :
  source_pixel im (0, 0) x y = getpixel im x y.
Proof.
  unfold source_pixel. simpl. rewrite !Z.sub_0_r, !Nat2Z.id.
  replace (0 <=? Z.of_nat x) with true by (symmetry; apply Z.leb_le; lia).
  replace (0 <=? Z.of_nat y) with true by (symmetry; apply Z.leb_le; lia).
  done.
Qed.

Lemma imap_pointwise {A B} (f g : nat → A → B) (l : list A) :
  (∀ i x, f i x = g i x) → imap f l = imap g l.
Proof. intros H. apply imap_ext. intros. apply H. Qed.

(** The modes of the model that carry alpha. *)
Lemma transparency_modes (im : Image) (m : pmode) :
  has_transparency_channel im = true → mode_of_name (im_mode im) = Some m →
  m = LA ∨ m = RGBA.
Proof.
  unfold has_transparency_channel. intros Hin Hm.
  apply bool_decide_eq_true_1 in Hin.
  rewrite !elem_of_cons in Hin.
  destruct Hin as [H|[H|[H|[H|[H|H]]]]]; try (by apply elem_of_nil in H);
    rewrite H in Hm; vm_compute in Hm; try discriminate;
    injection Hm as <-; auto.
Qed.

(** The modes L, LA, RGB and RGBA are no palette modes, so that on images
    of these modes [paste] and [convert] are the functions written for
    them. *)
Lemma known_not_palette (s : string) (m : pmode) :
  mode_of_name s = Some m → palette_mode_of_name s = None.
Proof.
  unfold mode_of_name, palette_mode_of_name. intros H.
  destruct (String.eqb s "P") eqn:HP.
  { apply String.eqb_eq in HP. subst s. vm_compute in H. discriminate. }
  destruct (String.eqb s "PA") eqn:HPA.
  { apply String.eqb_eq in HPA. subst s. vm_compute in H. discriminate. }
  done.
Qed.

Lemma paste_of_known (self im : Image) (box : Z * Z) (mask : option Image)
    (m : pmode) :
  mode_of_name (im_mode im) = Some m →
  paste self im box mask = paste_known self im box mask.
Proof. intros H. unfold paste. by rewrite (known_not_palette _ _ H). Qed.

Lemma convert_of_known (im : Image) (mode : string) (m : pmode) :
  mode_of_name (im_mode im) = Some m →
  convert im mode = convert_known im mode.
Proof. intros H. unfold convert. by rewrite (known_not_palette _ _ H). Qed.

Lemma paste_masked_alpha (m : pmode) (bg fg : Image) :
  im_mode bg = "RGB" → mode_of_name (im_mode fg) = Some m → m = LA ∨ m = RGBA →
  paste bg fg (0, 0) (Some fg)
  = Ok (mkImage "RGB" (im_size bg) (composite_rows m bg fg)).
Proof.
  intros Hbg Hfg Hm. rewrite (paste_of_known _ _ _ _ _ Hfg).
  unfold paste_known. rewrite Hbg, Hfg. simpl.
  assert (Hstep : (if decide (RGB = m) then Ok fg
                   else match m with
                        | LA | RGBA => Ok fg
                        | _ => convert fg "RGB"
                        end) = Ok fg) by (by destruct Hm as [-> | ->]).
  rewrite Hstep. simpl. rewrite Hfg. simpl.
  rewrite bool_decide_eq_true_2 by done. simpl.
  assert (Hout : ∀ rows rows' : list (list (list Z)), rows = rows' →
            Ok (mkImage "RGB" (im_size bg) rows)
            = Ok (mkImage "RGB" (im_size bg) rows')) by (by intros ?? ->).
  destruct Hm as [-> | ->]; apply Hout; unfold composite_rows;
    apply imap_pointwise; intros y row; apply imap_pointwise; intros x d;
    rewrite source_pixel_origin; by destruct (getpixel fg x y).
Qed.

Lemma getpixel_filled (mode : string) (w h : nat) (px : list Z) (x y : nat) :
  (x < w)%nat → (y < h)%nat →
  getpixel (mkImage mode (w, h) (replicate h (replicate w px))) x y = Some px.
Proof.
  intros Hx Hy. unfold getpixel. simpl.
  rewrite lookup_replicate_2 by done. simpl.
  by rewrite lookup_replicate_2.
Qed.

Lemma getpixel_composite (m : pmode) (bg fg : Image) (x y : nat) (d s : list Z) :
  getpixel bg x y = Some d → getpixel fg x y = Some s →
  getpixel (mkImage "RGB" (im_size bg) (composite_rows m bg fg)) x y
  = Some (zip_with (blend (alpha_of m s)) d (rgb_of m s)).
Proof.
  unfold getpixel at 1 3. simpl. unfold composite_rows.
  intros Hd Hs. rewrite list_lookup_imap.
  destruct (im_data bg !! y) as [row|]; simpl in *; [|done].
  rewrite list_lookup_imap, Hd. simpl. by rewrite Hs.
Qed.

Lemma wf_getpixel (im : Image) (m : pmode) (x y : nat) :
  mode_of_name (im_mode im) = Some m → wf_image im →
  (x < fst (im_size im))%nat → (y < snd (im_size im))%nat →
  ∃ px, getpixel im x y = Some px ∧ wf_pixel m px.
Proof.
  intros Hm (m' & Hmode & Hlen & Hrows) Hx Hy.
  rewrite Hm in Hmode. injection Hmode as <-.
  destruct (lookup_lt_is_Some_2 (im_data im) y) as [row Hrow]; [lia|].
  rewrite Forall_lookup in Hrows. destruct (Hrows _ _ Hrow) as [Hw Hpx].
  destruct (lookup_lt_is_Some_2 row x) as [px Hp]; [lia|].
  rewrite Forall_lookup in Hpx.
  exists px. split; [|by eapply Hpx].
  unfold getpixel. rewrite Hrow. simpl. by rewrite Hp.
Qed.

Lemma wf_pixel_views (m : pmode) (px : list Z) :
  wf_pixel m px →
  ∃ r g b, rgb_of m px = [r; g; b]
    ∧ 0 ≤ r ≤ 255 ∧ 0 ≤ g ≤ 255 ∧ 0 ≤ b ≤ 255 ∧ 0 ≤ alpha_of m px ≤ 255.
Proof.
  intros [Hlen Hr].
  destruct m; simpl in Hlen;
    repeat (destruct px as [|? px]; simpl in Hlen; try discriminate);
    rewrite ?Forall_cons in Hr; simpl; unfold band; simpl;
    do 3 eexists; (split; [reflexivity|]); intuition lia.
Qed.

End Compositing.

(** ** The compositing step over any imaging library *)

Section CompositingControl.

Context (pil : Imaging).

Lemma applyBackground_new_fails (fg : Image) (rgb : Z * Z * Z) (e : exn) :
  Image_new pil "RGB" (im_size fg) rgb = Raise e →
  applyBackground pil fg rgb = ([], Raise e).
Proof. intros H. unfold applyBackground. by rewrite H. Qed.

Lemma applyBackground_masked (fg bg out : Image) (rgb : Z * Z * Z) :
  Image_new pil "RGB" (im_size fg) rgb = Ok bg →
  Image_paste pil bg fg (0, 0) (Some fg) = Ok out →
  applyBackground pil fg rgb = ([], Ok out).
Proof. intros Hn Hp. unfold applyBackground. rewrite Hn. simpl. by rewrite Hp. Qed.

Lemma applyBackground_fallback (fg bg : Image) (rgb : Z * Z * Z) (e : exn) :
  Image_new pil "RGB" (im_size fg) rgb = Ok bg →
  Image_paste pil bg fg (0, 0) (Some fg) = Raise e →
  isinstance_ValueError e = true →
  applyBackground pil fg rgb
  = ([fallback_warning e], Image_paste pil bg fg (0, 0) None).
Proof.
  intros Hn Hp He. unfold applyBackground. rewrite Hn. simpl. rewrite Hp.
  simpl. rewrite He. simpl.
  by destruct (Image_paste pil bg fg (0, 0) None).
Qed.

Lemma applyBackground_propagates (fg bg : Image) (rgb : Z * Z * Z) (e : exn) :
  Image_new pil "RGB" (im_size fg) rgb = Ok bg →
  Image_paste pil bg fg (0, 0) (Some fg) = Raise e →
  isinstance_ValueError e = false →
  applyBackground pil fg rgb = ([], Raise e).
Proof.
  intros Hn Hp He. unfold applyBackground. rewrite Hn. simpl. rewrite Hp.
  simpl. by rewrite He.
Qed.

End CompositingControl.




(** ** The processing pass over any collaborators *)

Section Pass.

Context (pil : Imaging) (svc : Services).

Ltac unfold_pass :=
  unfold main_area, processing, column1, column2, finalizeForExport,
    applyBackground, try_except_ValueError, call, emit;
  unfold mbind, M_bind, mret, M_ret, result_bind.

Ltac split_calls := repeat (case_match; simplify_eq/=; try done).

(** A block stopped by an exception has offered no download. *)
Lemma processing_raise_no_download ss f crop out e :
  processing pil svc ss f crop = (out, Raise e) → downloads out = [].
Proof. unfold_pass. intros H. split_calls. Qed.

(** The outer handler: whatever stops the block is reported after the
    elements already written, and nothing follows the report. *)
Lemma main_area_raise ss f crop out e :
  processing pil svc ss f crop = (out, Raise e) →
  main_area pil svc ss (Some f) crop = out ++ report_error e.
Proof. intros H. unfold main_area. by rewrite H. Qed.

Lemma main_area_ok ss f crop out :
  processing pil svc ss f crop = (out, Ok tt) →
  main_area pil svc ss (Some f) crop = out.
Proof. intros H. unfold main_area. by rewrite H. Qed.

(** How far the block gets. *)
Lemma processing_open_fails ss f crop e :
  Image_open svc (getvalue f) = Raise e →
  processing pil svc ss f crop = ([], Raise e).
Proof. intros H. unfold processing, call. by rewrite H. Qed.

Lemma processing_remove_fails ss f crop input e :
  Image_open svc (getvalue f) = Ok input →
  rembg_remove svc input = Raise e →
  processing pil svc ss f crop = ([st_spinner "Removing background..."], Raise e).
Proof. intros H1 H2. unfold processing, call. rewrite H1. simpl. by rewrite H2. Qed.

Lemma processing_color_fails ss f crop input fg e :
  Image_open svc (getvalue f) = Ok input →
  rembg_remove svc input = Ok fg →
  read_color ss = Raise e →
  processing pil svc ss f crop = ([st_spinner "Removing background..."], Raise e).
Proof.
  intros H1 H2 H3. unfold processing, call. rewrite H1. simpl. rewrite H2.
  simpl. by rewrite H3.
Qed.

Lemma processing_composite_fails ss f crop input fg rgb shown e :
  Image_open svc (getvalue f) = Ok input →
  rembg_remove svc input = Ok fg →
  read_color ss = Ok rgb →
  applyBackground pil fg rgb = (shown, Raise e) →
  processing pil svc ss f crop
  = (st_spinner "Removing background..." :: shown, Raise e).
Proof.
  intros H1 H2 H3 H4. unfold processing, call. rewrite H1. simpl. rewrite H2.
  simpl. rewrite H3. simpl. by rewrite H4.
Qed.

(** A pass that succeeds without cropping. *)
Lemma main_area_no_crop ss f input fg rgb shown bg saved byte_im :
  Image_open svc (getvalue f) = Ok input →
  rembg_remove svc input = Ok fg →
  read_color ss = Ok rgb →
  applyBackground pil fg rgb = (shown, Ok bg) →
  finalizeForExport pil svc bg = Ok (saved, byte_im) →
  main_area pil svc ss (Some f) "No Crop"
  = st_spinner "Removing background..." :: shown
      ++ preview bg ++ result_column f bg byte_im.
Proof.
  intros H1 H2 H3 H4 H5.
  unfold main_area, processing, column1, column2, call, emit.
  rewrite H1. simpl. rewrite H2. simpl. rewrite H3. simpl. rewrite H4. simpl.
  by rewrite H5.
Qed.

(** A pass that succeeds with the crop widget returning [final]. *)
Lemma main_area_cropped ss f crop input fg rgb shown bg final saved byte_im :
  String.eqb crop "No Crop" = false →
  Image_open svc (getvalue f) = Ok input →
  rembg_remove svc input = Ok fg →
  read_color ss = Ok rgb →
  applyBackground pil fg rgb = (shown, Ok bg) →
  st_cropper svc bg (aspect_ratio_of crop) (cropper_key (name f) crop)
  = Ok (Some final) →
  finalizeForExport pil svc final = Ok (saved, byte_im) →
  main_area pil svc ss (Some f) crop
  = st_spinner "Removing background..." :: shown
      ++ [ st_header "Crop Area (Adjust Box)";
           st_info "Adjust the blue box. The result appears on the right.";
           st_cropper_widget bg (aspect_ratio_of crop) (cropper_key (name f) crop) ]
      ++ result_column f final byte_im.
Proof.
  intros H0 H1 H2 H3 H4 H5 H6.
  unfold main_area, processing, column1, column2, call, emit.
  rewrite H1. simpl. rewrite H2. simpl. rewrite H3. simpl. rewrite H4. simpl.
  rewrite H0. simpl. rewrite H5. simpl. by rewrite H6.
Qed.

End Pass.

(** ** The export step *)

(** What the export step returns is what it saved. *)
Lemma finalizeForExport_saves (pil : Imaging) (svc : Services) (im saved : Image)
    (byte_im : list Byte.byte) :
  finalizeForExport pil svc im = Ok (saved, byte_im) →
  Image_save svc saved "PNG" = Ok byte_im.
Proof.
  unfold finalizeForExport. unfold mbind, result_bind.
  intros H. repeat (case_match; simplify_eq/=; try done).
Qed.

(** The image the export step saves: the image itself when its mode is
    RGBA or RGB, its conversion to RGB otherwise. *)
Lemma finalizeForExport_image (pil : Imaging) (svc : Services) (im saved : Image)
    (byte_im : list Byte.byte) :
  finalizeForExport pil svc im = Ok (saved, byte_im) →
  (im_mode im = "RGBA" ∨ im_mode im = "RGB") ∧ saved = im
  ∨ im_mode im ≠ "RGBA" ∧ im_mode im ≠ "RGB"
    ∧ Image_convert pil im "RGB" = Ok saved.
Proof.
  unfold finalizeForExport. unfold mbind, result_bind.
  destruct (String.eqb_spec (im_mode im) "RGBA") as [HA|HA].
  { intros H. left. split; [by left|].
    destruct (Image_save svc im "PNG"); by simplify_eq/=. }
  destruct (String.eqb_spec (im_mode im) "RGB") as [HB|HB]; simpl.
  { intros H. left. split; [by right|].
    destruct (Image_save svc im "PNG"); by simplify_eq/=. }
  intros H. right. split; [done|]. split; [done|].
  destruct (Image_convert pil im "RGB") as [im'|]; simpl in H; [|done].
  destruct (Image_save svc im' "PNG"); by simplify_eq/=.
Qed.

(** C2, as amended.  The export step saves a PNG, and succeeds exactly in
    these cases: the mode is RGBA or RGB and the image itself is saved
    (an RGBA image keeps its alpha band), or the mode is any other one --
    also one that carries alpha, such as LA -- and the image saved is its
    conversion to RGB. *)
Theorem export_by_mode (pil : Imaging) (svc : Services) (im saved : Image)
    (byte_im : list Byte.byte) :
  finalizeForExport pil svc im = Ok (saved, byte_im)
  ↔ Image_save svc saved "PNG" = Ok byte_im
    ∧ ((im_mode im = "RGBA" ∧ saved = im)
       ∨ (im_mode im = "RGB" ∧ saved = im)
       ∨ (im_mode im ≠ "RGBA" ∧ im_mode im ≠ "RGB"
          ∧ Image_convert pil im "RGB" = Ok saved)).
Proof.
  unfold finalizeForExport.
  destruct (String.eqb_spec (im_mode im) "RGBA") as [Ha|Ha].
  - split.
    + destruct (Image_save svc im "PNG") as [b|e] eqn:Hs; simpl; [|done].
      intros [= <- <-]. auto.
    + intros [Hs [[_ ->]|[[Hm _]|[Hm _]]]]; [|congruence..].
      by rewrite Hs.
  - destruct (String.eqb_spec (im_mode im) "RGB") as [Hb|Hb]; simpl.
    + split.
      * destruct (Image_save svc im "PNG") as [b|e] eqn:Hs; simpl; [|done].
        intros [= <- <-]. auto.
      * intros [Hs [[Hm _]|[[_ ->]|[_ [Hm _]]]]]; [congruence| |congruence].
        by rewrite Hs.
    + split.
      * destruct (Image_convert pil im "RGB") as [im'|e] eqn:Hc; simpl; [|done].
        destruct (Image_save svc im' "PNG") as [b|e] eqn:Hs; simpl; [|done].
        intros [= <- <-]. auto 10.
      * intros [Hs [[Hm _]|[[Hm _]|(_ & _ & Hc)]]]; [congruence..|].
        rewrite Hc. simpl. by rewrite Hs.
Qed.

Lemma export_by_mode_witness :
  Image_save (Demo.services Demo.cutout None) Demo.grey_as_rgb "PNG"
  = Ok (Demo.png Byte.x03)
  ∧ Image_convert Pillow.imaging Demo.grey_alpha "RGB" = Ok Demo.grey_as_rgb.
Proof.
  destruct (proj1 (export_by_mode Pillow.imaging (Demo.services Demo.cutout None)
                     Demo.grey_alpha Demo.grey_as_rgb (Demo.png Byte.x03)))
    as [Hs [[Hm _]|[[Hm _]|(_ & _ & Hc)]]].
  - reflexivity.
  - discriminate Hm.
  - discriminate Hm.
  - by split.
Defined.

(** C2, as stated, fails.  A grey image with alpha (mode LA) has a
    transparency band, yet the export step saves its conversion to RGB,
    which has none. *)
Lemma export_drops_alpha_of_LA :
  has_transparency_channel Demo.grey_alpha = true
  ∧ finalizeForExport Pillow.imaging (Demo.services Demo.cutout None)
      Demo.grey_alpha = Ok (Demo.grey_as_rgb, Demo.png Byte.x03)
  ∧ has_transparency_channel Demo.grey_as_rgb = false
  ∧ ¬ (∀ (pil : Imaging) (svc : Services) (im saved : Image)
         (byte_im : list Byte.byte),
         has_transparency_channel im = true →
         finalizeForExport pil svc im = Ok (saved, byte_im) →
         saved = im).
Proof.
  split; [reflexivity|]. split; [reflexivity|]. split; [reflexivity|].
  intros H.
  specialize (H Pillow.imaging (Demo.services Demo.cutout None)
                Demo.grey_alpha Demo.grey_as_rgb (Demo.png Byte.x03)
                eq_refl eq_refl).
  discriminate H.
Qed.

(** ** Recovery and failure of the compositing step *)

(** C3, as amended.  When the masked paste raises a [ValueError], the
    compositing step writes the warning and makes the unmasked paste of
    the foreground at the origin; the outcome of that paste is the outcome
    of the step.  When that paste returns an image the pass goes on with
    it: without cropping it is previewed, shown as the result and offered
    for download. *)
Theorem fallback_on_ValueError (pil : Imaging) (svc : Services)
    (ss : session_state) (f : UploadedFile) (input fg bg : Image)
    (rgb : Z * Z * Z) (e : exn) :
  Image_open svc (getvalue f) = Ok input →
  rembg_remove svc input = Ok fg →
  read_color ss = Ok rgb →
  Image_new pil "RGB" (im_size fg) rgb = Ok bg →
  Image_paste pil bg fg (0, 0) (Some fg) = Raise e →
  isinstance_ValueError e = true →
  applyBackground pil fg rgb
  = ([fallback_warning e], Image_paste pil bg fg (0, 0) None)
  ∧ ∀ out saved byte_im,
      Image_paste pil bg fg (0, 0) None = Ok out →
      finalizeForExport pil svc out = Ok (saved, byte_im) →
      main_area pil svc ss (Some f) "No Crop"
      = [st_spinner "Removing background..."; fallback_warning e]
          ++ preview out ++ result_column f out byte_im.
Proof.
  intros Hopen Hremove Hcolor Hnew Hmasked He.
  pose proof (applyBackground_fallback pil fg bg rgb e Hnew Hmasked He) as Hstep.
  split; [done|].
  intros out saved byte_im Hdirect Hexport.
  rewrite Hdirect in Hstep.
  by rewrite (main_area_no_crop pil svc ss f input fg rgb
                [fallback_warning e] out saved byte_im).
Qed.

Lemma fallback_on_ValueError_witness :
  main_area Pillow.imaging (Demo.services Demo.opaque None) Demo.white_state
    (Some Demo.photo) "No Crop"
  = [ st_spinner "Removing background...";
      fallback_warning (Exn ValueError "bad transparency mask") ]
      ++ preview Demo.opaque
      ++ result_column Demo.photo Demo.opaque (Demo.png Byte.x05).
Proof.
  destruct (fallback_on_ValueError Pillow.imaging (Demo.services Demo.opaque None)
              Demo.white_state Demo.photo Demo.snapshot Demo.opaque
              (mkImage "RGB" (2, 1)%nat [[[255; 255; 255]; [255; 255; 255]]])
              (255, 255, 255) (Exn ValueError "bad transparency mask")
              eq_refl eq_refl eq_refl eq_refl eq_refl eq_refl)
    as [_ Hpass].
  apply (Hpass Demo.opaque Demo.opaque (Demo.png Byte.x05)); reflexivity.
Defined.

(** C3, as stated, fails.  With Pillow short of memory the masked paste
    of the cut-out raises [MemoryError], which is no [ValueError]: the
    unmasked paste, which would return an image, is not made, no warning
    is written and the exception leaves the step. *)
Lemma no_fallback_on_MemoryError :
  Image_new Demo.exhausted "RGB" (im_size Demo.cutout) (255, 0, 0)
  = Ok Demo.red_background
  ∧ Image_paste Demo.exhausted Demo.red_background Demo.cutout (0, 0)
      (Some Demo.cutout) = Raise (Exn MemoryError "")
  ∧ (∃ out, Image_paste Demo.exhausted Demo.red_background Demo.cutout (0, 0) None
            = Ok out)
  ∧ applyBackground Demo.exhausted Demo.cutout (255, 0, 0)
    = ([], Raise (Exn MemoryError ""))
  ∧ ¬ (∀ (pil : Imaging) (fg bg : Image) (rgb : Z * Z * Z) (e : exn),
         Image_new pil "RGB" (im_size fg) rgb = Ok bg →
         Image_paste pil bg fg (0, 0) (Some fg) = Raise e →
         applyBackground pil fg rgb
         = ([fallback_warning e], Image_paste pil bg fg (0, 0) None)).
Proof.
  split; [reflexivity|]. split; [reflexivity|].
  split; [eexists; reflexivity|]. split; [reflexivity|].
  intros H.
  specialize (H Demo.exhausted Demo.cutout Demo.red_background
                (255, 0, 0) (Exn MemoryError "") eq_refl eq_refl).
  discriminate H.
Qed.

(** C10.  After the background image has been made, the compositing step
    writes its warning exactly when the masked paste raises a
    [ValueError], and then its outcome is that of the unmasked paste.
    When the masked paste returns, its image is the outcome and nothing
    is written.  When it raises any other exception, the step writes
    nothing and raises that exception; the pass then consists of the
    spinner and the error report, with no warning and no download. *)
Theorem fallback_exactly_on_ValueError (pil : Imaging) (svc : Services)
    (ss : session_state) (f : UploadedFile) (crop : string)
    (input fg bg : Image) (rgb : Z * Z * Z) :
  Image_open svc (getvalue f) = Ok input →
  rembg_remove svc input = Ok fg →
  read_color ss = Ok rgb →
  Image_new pil "RGB" (im_size fg) rgb = Ok bg →
  (warnings (applyBackground pil fg rgb).1 ≠ []
   ↔ ∃ e, Image_paste pil bg fg (0, 0) (Some fg) = Raise e
        ∧ isinstance_ValueError e = true)
  ∧ (∀ e, Image_paste pil bg fg (0, 0) (Some fg) = Raise e →
       isinstance_ValueError e = true →
       applyBackground pil fg rgb
       = ([fallback_warning e], Image_paste pil bg fg (0, 0) None))
  ∧ (∀ out, Image_paste pil bg fg (0, 0) (Some fg) = Ok out →
       applyBackground pil fg rgb = ([], Ok out))
  ∧ (∀ e, Image_paste pil bg fg (0, 0) (Some fg) = Raise e →
       isinstance_ValueError e = false →
       applyBackground pil fg rgb = ([], Raise e)
       ∧ main_area pil svc ss (Some f) crop
         = st_spinner "Removing background..." :: report_error e
       ∧ warnings (main_area pil svc ss (Some f) crop) = []
       ∧ downloads (main_area pil svc ss (Some f) crop) = []).
Proof.
  intros Hopen Hremove Hcolor Hnew.
  split; [|split; [|split]].
  - destruct (Image_paste pil bg fg (0, 0) (Some fg)) as [out|e] eqn:Hmasked.
    + rewrite (applyBackground_masked pil fg bg out rgb Hnew Hmasked). simpl.
      split; [done|]. by intros (e & He & _).
    + destruct (isinstance_ValueError e) eqn:He.
      * rewrite (applyBackground_fallback pil fg bg rgb e Hnew Hmasked He).
        simpl. split; [eauto|done].
      * rewrite (applyBackground_propagates pil fg bg rgb e Hnew Hmasked He).
        simpl. split; [done|]. intros (e' & [= <-] & He'). congruence.
  - intros e. by apply applyBackground_fallback.
  - intros out. by apply applyBackground_masked.
  - intros e Hmasked He.
    pose proof (applyBackground_propagates pil fg bg rgb e Hnew Hmasked He) as Hstep.
    assert (Hpass : main_area pil svc ss (Some f) crop
                    = st_spinner "Removing background..." :: report_error e).
    { by rewrite (main_area_raise pil svc ss f crop
                    [st_spinner "Removing background..."] e)
        by (by eapply processing_composite_fails). }
    by rewrite Hpass.
Qed.

Lemma fallback_exactly_on_ValueError_witness :
  main_area Demo.exhausted (Demo.services Demo.cutout None) Demo.red_state
    (Some Demo.photo) "No Crop"
  = st_spinner "Removing background..." :: report_error (Exn MemoryError "").
Proof.
  destruct (fallback_exactly_on_ValueError Demo.exhausted
              (Demo.services Demo.cutout None) Demo.red_state Demo.photo
              "No Crop" Demo.snapshot Demo.cutout
              Demo.red_background (255, 0, 0) eq_refl eq_refl eq_refl eq_refl)
    as (_ & _ & _ & Hother).
  destruct (Hother (Exn MemoryError "") eq_refl eq_refl) as (_ & Hpass & _).
  exact Hpass.
Defined.

(** ** The error state *)

(** C7.  When decoding the upload, background removal or the compositing
    step raises an exception, the pass ends with the error report --
    headline, the message of the exception, its traceback, and the hint --
    after which nothing is written; no download is offered. *)
Theorem error_state (pil : Imaging) (svc : Services) (ss : session_state)
    (f : UploadedFile) (crop : string) (e : exn) :
  step_raises pil svc ss f e →
  (∃ shown,
     main_area pil svc ss (Some f) crop
     = shown ++ [ st_error error_header; st_error (str_exn e);
                  st_exception e; st_error error_hint ])
  ∧ downloads (main_area pil svc ss (Some f) crop) = [].
Proof.
  intros Hstep.
  assert (∃ shown, processing pil svc ss f crop = (shown, Raise e))
    as [shown Hshown].
  { destruct Hstep as [H|(input & Hopen & [H|(fg & Hremove & [H|(rgb & shown & Hc & H)])])].
    - eexists. by apply processing_open_fails.
    - eexists. by eapply processing_remove_fails.
    - eexists. by eapply processing_color_fails.
    - eexists. by eapply processing_composite_fails. }
  rewrite (main_area_raise pil svc ss f crop shown e Hshown).
  split; [by exists shown|].
  unfold downloads. rewrite omap_app.
  change (omap _ shown) with (downloads shown).
  by rewrite (processing_raise_no_download pil svc ss f crop shown e Hshown).
Qed.

Lemma error_state_witness :
  downloads (main_area Pillow.imaging (Demo.services Demo.cutout None)
               Demo.white_state
               (Some {| name := "notes.png"; getvalue := [Byte.x00] |})
               "No Crop") = [].
Proof.
  apply (error_state Pillow.imaging (Demo.services Demo.cutout None)
           Demo.white_state {| name := "notes.png"; getvalue := [Byte.x00] |}
           "No Crop" (Exn UnidentifiedImageError "cannot identify image file")).
  left. reflexivity.
Defined.

(** ** The crop widget's key *)

Section CropKey.

Context (pil : Imaging) (svc : Services).

(** Whatever the pass does, the only key it gives to a crop widget is the
    one built from the file name and the crop option. *)
Lemma cropper_keys_main_area ss f crop k :
  k ∈ cropper_keys (main_area pil svc ss (Some f) crop) →
  k = cropper_key (name f) crop.
Proof.
  unfold main_area, processing, column1, column2, finalizeForExport,
    applyBackground, try_except_ValueError, call, emit, report_error.
  unfold mbind, M_bind, mret, M_ret, result_bind.
  intros H.
  repeat (case_match; simplify_eq/=; try done);
    repeat match goal with
           | H : _ ∈ [] |- _ => by apply elem_of_nil in H
           | H : _ ∈ _ :: _ |- _ => apply elem_of_cons in H as [->|H]; [done|]
           end.
Qed.

End CropKey.

(** C4.  Two runs of the script on uploads of the same name with the same
    crop option give the crop widget the same key, whatever the session
    states (and so the selected colours), the button clicks and the file
    contents of the two runs are: the key is built from the file name and
    the crop option alone. *)
Theorem cropper_key_ignores_color (pil : Imaging) (svc : Services)
    (w1 w2 : Widgets) (ss1 ss2 : session_state) (f1 f2 : UploadedFile)
    (k1 k2 : string) :
  uploaded_file w1 = Some f1 →
  uploaded_file w2 = Some f2 →
  name f1 = name f2 →
  crop_aspect_ratio_option w1 = crop_aspect_ratio_option w2 →
  k1 ∈ cropper_keys (script pil svc w1 ss1).2 →
  k2 ∈ cropper_keys (script pil svc w2 ss2).2 →
  k1 = k2
  ∧ k1 = cropper_key (name f1) (option_label (crop_aspect_ratio_option w1)).
Proof.
  unfold script. simpl. intros -> -> Hname Hcrop Hk1 Hk2.
  apply cropper_keys_main_area in Hk1, Hk2.
  rewrite Hk1, Hk2, Hname, Hcrop. done.
Qed.

Lemma cropper_key_ignores_color_witness :
  "cropper_photo.jpg_1:1 (Square)" = "cropper_photo.jpg_1:1 (Square)"
  ∧ "cropper_photo.jpg_1:1 (Square)"
    = cropper_key (name Demo.photo) (option_label Square).
Proof.
  apply (cropper_key_ignores_color Pillow.imaging
           (Demo.services Demo.cutout (Some Demo.on_red))
           (widgets_of ClickRed (Some Demo.photo) Square)
           (widgets_of ClickWhite (Some Demo.photo) Square)
           Demo.white_state Demo.red_state Demo.photo Demo.photo);
    try reflexivity; vm_compute; constructor.
Defined.

(** ** The download *)

Lemma rsplit_aux_spec (sep : ascii) (s : string) :
  match Py.rsplit_aux sep s with
  | Some h => ∃ ext, s = h +:+ String sep ext ∧ Py.contains sep ext = false
  | None => Py.contains sep s = false
  end.
Proof.
  induction s as [|c s IH]; simpl; [done|].
  destruct (Py.rsplit_aux sep s) as [h|].
  - destruct IH as (ext & -> & Hext). by exists ext.
  - destruct (Ascii.eqb_spec c sep) as [->|Hne]; simpl.
    + by exists s.
    + done.
Qed.

(** [rsplit(".", 1)[0]] removes the last dot and what follows it, and
    keeps a name without a dot as it is. *)
Lemma rsplit1_head_spec (s : string) :
  (Py.contains "." s = false ∧ Py.rsplit1_head "." s = s)
  ∨ (∃ ext, s = Py.rsplit1_head "." s +:+ "." +:+ ext
          ∧ Py.contains "." ext = false).
Proof.
  unfold Py.rsplit1_head.
  pose proof (rsplit_aux_spec "." s) as H.
  destruct (Py.rsplit_aux "." s) as [h|]; [right|left]; done.
Qed.



(** ** Round trip of the export *)

Lemma mode_of_name_inj (s1 s2 : string) (m : Pillow.pmode) :
  Pillow.mode_of_name s1 = Some m → Pillow.mode_of_name s2 = Some m → s1 = s2.
Proof.
  unfold Pillow.mode_of_name. intros H1 H2.
  repeat match goal with
         | H : context [String.eqb ?s ?t] |- _ =>
             destruct (String.eqb_spec s t); simplify_eq
         end; done.
Qed.

(** The reference model of [convert] meets the converter's contract. *)
Lemma pillow_convert_contract : convert_contract Pillow.imaging.
Proof.
  intros im mode im'. simpl. unfold Pillow.convert.
  destruct (Pillow.palette_mode_of_name (im_mode im)) as [p|].
  { destruct (String.eqb_spec (im_mode im) mode) as [Heq|_].
    - by intros [= <-].
    - destruct (Pillow.convert_known (Pillow.resolve im) mode); simpl; [|done].
      by intros [= <-]. }
  unfold Pillow.convert_known.
  destruct (Pillow.mode_of_name (im_mode im)) as [src|] eqn:Hsrc; [|done].
  destruct (Pillow.mode_of_name mode) as [dst|] eqn:Hdst; [|done].
  destruct (decide (src = dst)) as [->|Hne]; intros [= <-]; simpl; [|done].
  split; [|done]. by eapply mode_of_name_inj.
Qed.

(** The stand-in codec of the examples is lossless on its files. *)
Lemma demo_png_lossless (removed : Image) (cropped : option Image) :
  png_lossless (Demo.services removed cropped).
Proof.
  intros im b _. simpl. unfold Demo.files. simpl.
  repeat (case_bool_decide; simplify_eq/=; [by intros [= <-]|]).
  done.
Qed.

(** C6.  With a lossless PNG codec and a converter that keeps the size,
    the bytes the export step produces decode to an image of the input's
    size; for an input of mode RGB (and of mode RGBA) the decoded image is
    the input itself, pixel for pixel, and for any other mode it is the
    input's conversion to RGB. *)
Theorem export_roundtrip (pil : Imaging) (svc : Services) (im saved : Image)
    (byte_im : list Byte.byte) :
  png_lossless svc → convert_contract pil →
  finalizeForExport pil svc im = Ok (saved, byte_im) →
  ∃ decoded,
    Image_open svc byte_im = Ok decoded
    ∧ im_size decoded = im_size im
    ∧ (im_mode im = "RGB" → decoded = im)
    ∧ (im_mode im = "RGBA" → decoded = im)
    ∧ (im_mode im ≠ "RGB" → im_mode im ≠ "RGBA" →
       Image_convert pil im "RGB" = Ok decoded).
Proof.
  intros Hpng Hconv Hexport.
  pose proof (finalizeForExport_saves pil svc im saved byte_im Hexport) as Hsave.
  revert Hexport. unfold finalizeForExport.
  destruct (String.eqb_spec (im_mode im) "RGBA") as [Ha|Ha].
  - destruct (Image_save svc im "PNG") as [b|e] eqn:Hs; simpl; [|done].
    intros [= <- <-]. exists im.
    rewrite (Hpng im b) by auto. by repeat split.
  - destruct (String.eqb_spec (im_mode im) "RGB") as [Hb|Hb]; simpl.
    + destruct (Image_save svc im "PNG") as [b|e] eqn:Hs; simpl; [|done].
      intros [= <- <-]. exists im.
      rewrite (Hpng im b) by auto. by repeat split.
    + destruct (Image_convert pil im "RGB") as [im'|e] eqn:Hc; simpl; [|done].
      destruct (Image_save svc im' "PNG") as [b|e] eqn:Hs; simpl; [|done].
      intros [= <- <-]. exists im'.
      destruct (Hconv im "RGB" im' Hc) as [Hmode Hsize].
      rewrite (Hpng im' b) by auto. by repeat split.
Qed.

Lemma export_roundtrip_witness :
  ∃ decoded,
    Image_open (Demo.services Demo.cutout None) (Demo.png Byte.x01) = Ok decoded
    ∧ im_size decoded = im_size Demo.on_white
    ∧ (im_mode Demo.on_white = "RGB" → decoded = Demo.on_white)
    ∧ (im_mode Demo.on_white = "RGBA" → decoded = Demo.on_white)
    ∧ (im_mode Demo.on_white ≠ "RGB" → im_mode Demo.on_white ≠ "RGBA" →
       Image_convert Pillow.imaging Demo.on_white "RGB" = Ok decoded).
Proof.
  apply (export_roundtrip Pillow.imaging (Demo.services Demo.cutout None)
           Demo.on_white Demo.on_white (Demo.png Byte.x01)).
  - apply demo_png_lossless.
  - apply pillow_convert_contract.
  - reflexivity.
Defined.

(** ** The colour slot *)

Section ColourSlot.

Context (pil : Imaging) (svc : Services).

Lemma color_picker_slot (value : string) (ss : session_state) :
  (color_picker value "color_picker_value" ss).1 !! "selected_color"
  = ss !! "selected_color".
Proof.
  unfold color_picker.
  destruct (ss !! "color_picker_value"); simpl; [done|].
  by rewrite lookup_insert_ne.
Qed.

Lemma sidebar_slot (w : Widgets) (ss : session_state) :
  sidebar w ss !! "selected_color"
  = preset_buttons w (init_session_state ss) !! "selected_color".
Proof.
  unfold sidebar.
  pose proof (color_picker_slot
                (default "" (preset_buttons w (init_session_state ss)
                               !! "selected_color"))
                (preset_buttons w (init_session_state ss))) as H.
  by destruct (color_picker _ _ _).
Qed.

Lemma init_slot (ss : session_state) :
  init_session_state ss !! "selected_color"
  = Some (default "#FFFFFF" (ss !! "selected_color")).
Proof.
  unfold init_session_state.
  destruct (ss !! "selected_color") eqn:H; simpl; [done|].
  by rewrite lookup_insert_eq.
Qed.

Lemma rerun_slot_click (p : preset) file crop (ss : session_state) :
  (rerun pil svc (click p) file crop ss).1 !! "selected_color"
  = Some (preset_hex p).
Proof.
  destruct p; simpl; rewrite sidebar_slot; unfold preset_buttons; simpl;
    by rewrite lookup_insert_eq.
Qed.

Lemma rerun_slot_pick (c : string) file crop (ss : session_state) :
  (rerun pil svc (PickColor c) file crop ss).1 !! "selected_color" = Some c.
Proof.
  simpl. unfold update_color_from_picker. rewrite lookup_insert_eq. simpl.
  rewrite sidebar_slot. unfold preset_buttons. simpl.
  by rewrite init_slot, lookup_insert_eq.
Qed.

Lemma rerun_slot_refresh file crop (ss : session_state) :
  (rerun pil svc Refresh file crop ss).1 !! "selected_color"
  = Some (default "#FFFFFF" (ss !! "selected_color")).
Proof.
  simpl. rewrite sidebar_slot. unfold preset_buttons. simpl. apply init_slot.
Qed.

(** The pass of a run works on the session state the sidebar left. *)
Lemma rerun_pass (i : interaction) file crop (ss : session_state) :
  (rerun pil svc i file crop ss).2
  = main_area pil svc (rerun pil svc i file crop ss).1 file (option_label crop).
Proof.
  destruct i; try done.
  simpl. unfold update_color_from_picker. by rewrite lookup_insert_eq.
Qed.

End ColourSlot.

(** The colour read by a pass depends on the slot alone. *)
Lemma read_color_slot (ss ss' : session_state) :
  ss !! "selected_color" = ss' !! "selected_color" →
  read_color ss = read_color ss'.
Proof. intros H. unfold read_color. by rewrite H. Qed.

(** C5.  Whatever the session state held before -- also a value the
    picker wrote -- the run triggered by the click of a preset leaves that
    preset's value in the colour slot, and the run triggered by a change
    of the picker leaves the picker's value there; the pass of the same
    run works on that state, so the colour it reads is the one just
    chosen. *)
Theorem color_slot_follows_last_action (pil : Imaging) (svc : Services)
    (file : option UploadedFile) (crop : CropOption) (ss : session_state) :
  (∀ p : preset,
     let run := rerun pil svc (click p) file crop ss in
     run.1 !! "selected_color" = Some (preset_hex p)
     ∧ run.2 = main_area pil svc run.1 file (option_label crop)
     ∧ read_color run.1 = read_color {[ "selected_color" := preset_hex p ]})
  ∧ (∀ c : string,
       let run := rerun pil svc (PickColor c) file crop ss in
       run.1 !! "selected_color" = Some c
       ∧ run.2 = main_area pil svc run.1 file (option_label crop)
       ∧ read_color run.1 = read_color {[ "selected_color" := c ]}).
Proof.
  split.
  - intros p run. subst run.
    split; [apply rerun_slot_click|]. split; [apply rerun_pass|].
    apply read_color_slot. by rewrite rerun_slot_click, lookup_singleton_eq.
  - intros c run. subst run.
    split; [apply rerun_slot_pick|]. split; [apply rerun_pass|].
    apply read_color_slot. by rewrite rerun_slot_pick, lookup_singleton_eq.
Qed.

Lemma color_slot_follows_last_action_witness :
  (rerun Pillow.imaging (Demo.services Demo.cutout None) (click Red) None NoCrop
     {[ "selected_color" := "#123456"; "color_picker_value" := "#123456" ]}).1
    !! "selected_color" = Some "#FF0000".
Proof.
  apply (color_slot_follows_last_action Pillow.imaging
           (Demo.services Demo.cutout None) None NoCrop
           {[ "selected_color" := "#123456"; "color_picker_value" := "#123456" ]}).
Defined.

(** ** The colour invariant *)

Lemma is_hex_digit_chars (c : ascii) :
  is_hex_digit c = true → In c hex_chars.
Proof.
  destruct c as [[] [] [] [] [] [] [] []]; vm_compute; intros H;
    first [ discriminate H | tauto ].
Qed.

(** Two hexadecimal digits parse to a byte. *)
Lemma int16_two_digits (c1 c2 : ascii) :
  is_hex_digit c1 = true → is_hex_digit c2 = true →
  ∃ v, Py.int16 (String c1 (String c2 EmptyString)) = Ok v ∧ 0 ≤ v ≤ 255.
Proof.
  intros H1 H2.
  apply is_hex_digit_chars in H1. apply is_hex_digit_chars in H2.
  unfold hex_chars in *. simpl in H1, H2.
  repeat (destruct H1 as [<-|H1]; [|]); try (by destruct H1);
    repeat (destruct H2 as [<-|H2]; [|]); try (by destruct H2);
    (eexists; split; [vm_compute; reflexivity | lia]).
Qed.

Lemma is_hex_color_inv (s : string) :
  is_hex_color s = true →
  ∃ c1 c2 c3 c4 c5 c6,
    s = String "#" (String c1 (String c2 (String c3 (String c4 (String c5
          (String c6 EmptyString))))))
    ∧ Forall (λ c, is_hex_digit c = true) [c1; c2; c3; c4; c5; c6].
Proof.
  destruct s as [|a s]; [discriminate|].
  destruct a as [[] [] [] [] [] [] [] []]; try discriminate.
  destruct s as [|c1 [|c2 [|c3 [|c4 [|c5 [|c6 [|? ?]]]]]]]; try discriminate.
  simpl. rewrite !andb_true_iff. intros (?&?&?&?&?&?&_).
  exists c1, c2, c3, c4, c5, c6. split; [done|].
  repeat constructor; done.
Qed.

Lemma hex_digit_is_hex (c : ascii) (d : Z) :
  Py.hex_digit c = Some d → is_hex_digit c = true.
Proof. unfold is_hex_digit. by intros ->. Qed.

(** Two hexadecimal digits parse to sixteen times the first plus the
    second. *)
Lemma int16_two_digits_value (c1 c2 : ascii) (d1 d2 : Z) :
  Py.hex_digit c1 = Some d1 → Py.hex_digit c2 = Some d2 →
  Py.int16 (String c1 (String c2 EmptyString)) = Ok (16 * d1 + d2).
Proof.
  intros H1 H2.
  pose proof (is_hex_digit_chars c1 (hex_digit_is_hex c1 d1 H1)) as I1.
  pose proof (is_hex_digit_chars c2 (hex_digit_is_hex c2 d2 H2)) as I2.
  unfold hex_chars in *. simpl in I1, I2.
  repeat (destruct I1 as [<-|I1]; [|]); try (by destruct I1);
    repeat (destruct I2 as [<-|I2]; [|]); try (by destruct I2);
    vm_compute in H1, H2; injection H1 as <-; injection H2 as <-;
    vm_compute; reflexivity.
Qed.

(** A hexadecimal digit has a value below sixteen. *)
Lemma is_hex_digit_value (c : ascii) :
  is_hex_digit c = true → ∃ d, Py.hex_digit c = Some d ∧ 0 ≤ d ≤ 15.
Proof.
  intros H. apply is_hex_digit_chars in H. unfold hex_chars in H. simpl in H.
  repeat (destruct H as [<-|H];
            [eexists; split; [vm_compute; reflexivity|by vm_compute]|]).
  by destruct H.
Qed.

(** A valid colour in the slot is read as the triple its digits denote:
    for each pair, sixteen times the first digit plus the second. *)
Lemma read_color_denotes (ss : session_state) :
  color_invariant ss →
  ∃ (c1 c2 c3 c4 c5 c6 : ascii) (d1 d2 d3 d4 d5 d6 : Z),
    ss !! "selected_color"
    = Some (String "#" (String c1 (String c2 (String c3 (String c4 (String c5
              (String c6 EmptyString)))))))
    ∧ Py.hex_digit c1 = Some d1 ∧ Py.hex_digit c2 = Some d2
    ∧ Py.hex_digit c3 = Some d3 ∧ Py.hex_digit c4 = Some d4
    ∧ Py.hex_digit c5 = Some d5 ∧ Py.hex_digit c6 = Some d6
    ∧ read_color ss = Ok (16 * d1 + d2, 16 * d3 + d4, 16 * d5 + d6).
Proof.
  intros (c & Hslot & Hc).
  apply is_hex_color_inv in Hc as (c1 & c2 & c3 & c4 & c5 & c6 & -> & Hd).
  rewrite !Forall_cons in Hd. destruct Hd as (H1 & H2 & H3 & H4 & H5 & H6 & _).
  assert (Hne : Ascii.eqb c1 "#" = false).
  { apply is_hex_digit_chars in H1. unfold hex_chars in H1. simpl in H1.
    repeat (destruct H1 as [<-|H1]; [done|]). by destruct H1. }
  apply is_hex_digit_value in H1 as (d1 & H1 & _).
  apply is_hex_digit_value in H2 as (d2 & H2 & _).
  apply is_hex_digit_value in H3 as (d3 & H3 & _).
  apply is_hex_digit_value in H4 as (d4 & H4 & _).
  apply is_hex_digit_value in H5 as (d5 & H5 & _).
  apply is_hex_digit_value in H6 as (d6 & H6 & _).
  exists c1, c2, c3, c4, c5, c6, d1, d2, d3, d4, d5, d6.
  repeat (split; [done|]).
  unfold read_color. rewrite Hslot. simpl.
  rewrite Hne. unfold Py.slice. simpl.
  rewrite (int16_two_digits_value c1 c2 d1 d2) by done. simpl.
  rewrite (int16_two_digits_value c3 c4 d3 d4) by done. simpl.
  by rewrite (int16_two_digits_value c5 c6 d5 d6).
Qed.

(** A valid colour in the slot parses to a triple of bytes. *)
Lemma read_color_valid (ss : session_state) :
  color_invariant ss →
  ∃ r g b, read_color ss = Ok (r, g, b)
    ∧ 0 ≤ r ≤ 255 ∧ 0 ≤ g ≤ 255 ∧ 0 ≤ b ≤ 255.
Proof.
  intros (c & Hslot & Hc).
  apply is_hex_color_inv in Hc as (c1 & c2 & c3 & c4 & c5 & c6 & -> & Hd).
  rewrite !Forall_cons in Hd. destruct Hd as (H1 & H2 & H3 & H4 & H5 & H6 & _).
  destruct (int16_two_digits c1 c2 H1 H2) as (r & Hr & Hrr).
  destruct (int16_two_digits c3 c4 H3 H4) as (g & Hg & Hgr).
  destruct (int16_two_digits c5 c6 H5 H6) as (b & Hb & Hbr).
  exists r, g, b. split; [|done].
  unfold read_color. rewrite Hslot. simpl.
  assert (Hne : Ascii.eqb c1 "#" = false).
  { apply is_hex_digit_chars in H1. unfold hex_chars in H1. simpl in H1.
    repeat (destruct H1 as [<-|H1]; [done|]). by destruct H1. }
  rewrite Hne. unfold Py.slice. simpl.
  rewrite Hr. simpl. rewrite Hg. simpl. by rewrite Hb.
Qed.

(** C8.  The first run puts white into the colour slot.  Every run whose
    interaction is one the widgets can produce keeps the slot a valid
    colour (and makes it one when the slot was missing): each preset
    writes a valid colour, the picker's change handler writes the picker's
    valid colour, and nothing else writes the slot.  The pass of a run
    works on the state the sidebar left, and it reads the slot's current
    value: from a valid slot it reads a triple of bytes, the one the
    slot's six digits denote (sixteen times the first digit of a pair plus
    the second), and that triple is the colour of the pass -- it is the
    fill colour handed to [Image.new], whose failure on it stops the
    pass, and the composite over it is what a pass without cropping
    previews and offers for download. *)
Theorem color_invariant_holds (pil : Imaging) (svc : Services)
    (file : option UploadedFile) (crop : CropOption) :
  (rerun pil svc Refresh file crop ∅).1 !! "selected_color" = Some "#FFFFFF"
  ∧ (∀ (i : interaction) (ss : session_state),
       well_formed_interaction i →
       ss !! "selected_color" = None ∨ color_invariant ss →
       color_invariant (rerun pil svc i file crop ss).1)
  ∧ (∀ (i : interaction) (ss : session_state),
       (rerun pil svc i file crop ss).2
       = main_area pil svc (rerun pil svc i file crop ss).1 file (option_label crop))
  ∧ (∀ ss : session_state,
       color_invariant ss →
       ∃ r g b, read_color ss = Ok (r, g, b)
         ∧ 0 ≤ r ≤ 255 ∧ 0 ≤ g ≤ 255 ∧ 0 ≤ b ≤ 255)
  ∧ (∀ ss : session_state,
       color_invariant ss →
       ∃ (c1 c2 c3 c4 c5 c6 : ascii) (d1 d2 d3 d4 d5 d6 : Z),
         ss !! "selected_color"
         = Some (String "#" (String c1 (String c2 (String c3 (String c4
                   (String c5 (String c6 EmptyString)))))))
         ∧ Py.hex_digit c1 = Some d1 ∧ Py.hex_digit c2 = Some d2
         ∧ Py.hex_digit c3 = Some d3 ∧ Py.hex_digit c4 = Some d4
         ∧ Py.hex_digit c5 = Some d5 ∧ Py.hex_digit c6 = Some d6
         ∧ read_color ss = Ok (16 * d1 + d2, 16 * d3 + d4, 16 * d5 + d6))
  ∧ (∀ (ss : session_state) (f : UploadedFile) (option : string)
       (input fg : Image) (rgb : Z * Z * Z) (e : exn),
       Image_open svc (getvalue f) = Ok input →
       rembg_remove svc input = Ok fg →
       read_color ss = Ok rgb →
       Image_new pil "RGB" (im_size fg) rgb = Raise e →
       main_area pil svc ss (Some f) option
       = st_spinner "Removing background..." :: report_error e)
  ∧ (∀ (ss : session_state) (f : UploadedFile) (input fg bg saved : Image)
       (rgb : Z * Z * Z) (shown : list ui) (byte_im : list Byte.byte),
       Image_open svc (getvalue f) = Ok input →
       rembg_remove svc input = Ok fg →
       read_color ss = Ok rgb →
       applyBackground pil fg rgb = (shown, Ok bg) →
       finalizeForExport pil svc bg = Ok (saved, byte_im) →
       main_area pil svc ss (Some f) "No Crop"
       = st_spinner "Removing background..." :: shown
           ++ preview bg ++ result_column f bg byte_im).
Proof.
  split; [by rewrite rerun_slot_refresh|].
  split.
  { intros i ss Hi Hss. unfold color_invariant.
    destruct i as [| | | |c].
    - rewrite rerun_slot_refresh.
      destruct Hss as [->|(c & -> & Hc)]; simpl; eauto.
    - rewrite (rerun_slot_click pil svc Red). eauto.
    - rewrite (rerun_slot_click pil svc Blue). eauto.
    - rewrite (rerun_slot_click pil svc White). eauto.
    - rewrite rerun_slot_pick. eauto. }
  split; [intros; apply rerun_pass|].
  split; [apply read_color_valid|].
  split; [apply read_color_denotes|].
  split.
  - intros ss f option input fg rgb e Hopen Hrem Hcol Hnew.
    rewrite (main_area_raise pil svc ss f option
               [st_spinner "Removing background..."] e); [done|].
    apply (processing_composite_fails pil svc ss f option input fg rgb []);
      try done.
    by apply applyBackground_new_fails.
  - intros ss f input fg bg saved rgb shown byte_im.
    apply main_area_no_crop.
Qed.

Lemma color_invariant_holds_witness :
  color_invariant
    (rerun Pillow.imaging (Demo.services Demo.cutout None) (PickColor "#1a2B3c")
       (Some Demo.photo) Square Demo.red_state).1
  ∧ main_area Pillow.imaging (Demo.services Demo.cutout None) Demo.red_state
      (Some Demo.photo) "No Crop"
    = st_spinner "Removing background..." :: []
        ++ preview Demo.on_red
        ++ result_column Demo.photo Demo.on_red (Demo.png Byte.x02).
Proof.
  destruct (color_invariant_holds Pillow.imaging
              (Demo.services Demo.cutout None) (Some Demo.photo) Square)
    as (_ & Hkeep & _ & _ & _ & _ & Hpass).
  split.
  - apply Hkeep.
    + reflexivity.
    + right. exists "#FF0000". split; reflexivity.
  - apply (Hpass Demo.red_state Demo.photo Demo.snapshot Demo.cutout
             Demo.on_red Demo.on_red (255, 0, 0) [] (Demo.png Byte.x02));
      reflexivity.
Defined.

(** ** The script at work on the sample upload *)

Example composite_over_red :
  applyBackground Pillow.imaging Demo.cutout (255, 0, 0) = ([], Ok Demo.on_red).
Proof. reflexivity. Qed.

Example composite_of_opaque_falls_back :
  applyBackground Pillow.imaging Demo.opaque (255, 0, 0)
  = ([fallback_warning (Exn ValueError "bad transparency mask")], Ok Demo.opaque).
Proof. reflexivity. Qed.

Example read_red : read_color Demo.red_state = Ok (255, 0, 0).
Proof. reflexivity. Qed.

Example read_short_color_raises :
  read_color {[ "selected_color" := "#FFF" ]}
  = Raise (Py.invalid_literal "").
Proof. reflexivity. Qed.

Example download_name_keeps_inner_dots :
  download_filename "holiday.2024.jpeg" = "holiday.2024_processed.png".
Proof. reflexivity. Qed.

Example download_name_without_dot :
  download_filename "scan" = "scan_processed.png".
Proof. reflexivity. Qed.

Example pass_without_crop :
  main_area Pillow.imaging (Demo.services Demo.cutout None) Demo.white_state
    (Some Demo.photo) "No Crop"
  = st_spinner "Removing background..."
      :: preview Demo.on_white
      ++ result_column Demo.photo Demo.on_white (Demo.png Byte.x01).
Proof. reflexivity. Qed.

Example pass_with_square_crop :
  cropper_keys
    (main_area Pillow.imaging (Demo.services Demo.cutout (Some Demo.on_red))
       Demo.red_state (Some Demo.photo) "1:1 (Square)")
  = ["cropper_photo.jpg_1:1 (Square)"].
Proof. reflexivity. Qed.

Example pass_on_undecodable_upload :
  main_area Pillow.imaging (Demo.services Demo.cutout None) Demo.white_state
    (Some {| name := "notes.png"; getvalue := [Byte.x00] |}) "No Crop"
  = report_error (Exn UnidentifiedImageError "cannot identify image file").
Proof. reflexivity. Qed.

(** * Further properties of the script *)

(** ** The colour slot over a session *)

Lemma rerun_slot (pil : Imaging) (svc : Services) (i : interaction)
    (file : option UploadedFile) (crop : CropOption) (ss : session_state) :
  (rerun pil svc i file crop ss).1 !! "selected_color"
  = Some (default (default "#FFFFFF" (ss !! "selected_color")) (color_written i)).
Proof.
  destruct i as [| | | |c].
  - apply rerun_slot_refresh.
  - apply (rerun_slot_click pil svc Red).
  - apply (rerun_slot_click pil svc Blue).
  - apply (rerun_slot_click pil svc White).
  - apply rerun_slot_pick.
Qed.

(** X1.  After a session of at least one interaction the colour slot holds
    the colour written by the last click of a preset or change of the
    picker; when the session had none, it holds what it held before the
    session, or white when it held nothing.  Uploads, changes of the crop
    option and drags of the crop box never change the colour. *)
Theorem session_color (pil : Imaging) (svc : Services)
    (steps : list (interaction * option UploadedFile * CropOption))
    (ss : session_state) :
  steps ≠ [] →
  run_session pil svc steps ss !! "selected_color"
  = Some (default (default "#FFFFFF" (ss !! "selected_color"))
            (last_color_written steps)).
Proof.
  revert ss. induction steps as [|[[i file] crop] rest IH]; intros ss Hne; [done|].
  simpl. destruct rest as [|step rest'].
  - simpl. apply rerun_slot.
  - rewrite IH by done. rewrite rerun_slot.
    destruct (last_color_written (step :: rest')); simpl; [done|].
    by destruct (color_written i).
Qed.

Lemma session_color_witness :
  run_session Pillow.imaging (Demo.services Demo.cutout None)
    [ (PickColor "#123456", None, NoCrop);
      (ClickBlue, Some Demo.photo, NoCrop);
      (Refresh, Some Demo.photo, Square);
      (Refresh, Some Demo.photo, Passport) ] ∅
    !! "selected_color" = Some "#0000FF".
Proof.
  apply (session_color Pillow.imaging (Demo.services Demo.cutout None)
           [ (PickColor "#123456", None, NoCrop);
             (ClickBlue, Some Demo.photo, NoCrop);
             (Refresh, Some Demo.photo, Square);
             (Refresh, Some Demo.photo, Passport) ] ∅).
  discriminate.
Defined.

(** ** The colour parse *)

(** X2.  A slot holding [#] and six hexadecimal digits, upper or lower
    case, is read as the triple whose components are sixteen times the
    first digit of each pair plus the second. *)
Theorem read_color_value (ss : session_state) (c1 c2 c3 c4 c5 c6 : ascii)
    (d1 d2 d3 d4 d5 d6 : Z) :
  ss !! "selected_color"
  = Some (String "#" (String c1 (String c2 (String c3 (String c4 (String c5
            (String c6 EmptyString))))))) →
  Py.hex_digit c1 = Some d1 → Py.hex_digit c2 = Some d2 →
  Py.hex_digit c3 = Some d3 → Py.hex_digit c4 = Some d4 →
  Py.hex_digit c5 = Some d5 → Py.hex_digit c6 = Some d6 →
  read_color ss = Ok (16 * d1 + d2, 16 * d3 + d4, 16 * d5 + d6).
Proof.
  intros Hslot H1 H2 H3 H4 H5 H6.
  unfold read_color. rewrite Hslot. simpl.
  assert (Hne : Ascii.eqb c1 "#" = false).
  { pose proof (is_hex_digit_chars c1 (hex_digit_is_hex c1 d1 H1)) as I1.
    unfold hex_chars in I1. simpl in I1.
    repeat (destruct I1 as [<-|I1]; [done|]). by destruct I1. }
  rewrite Hne. unfold Py.slice. simpl.
  rewrite (int16_two_digits_value c1 c2 d1 d2) by done. simpl.
  rewrite (int16_two_digits_value c3 c4 d3 d4) by done. simpl.
  by rewrite (int16_two_digits_value c5 c6 d5 d6).
Qed.

Lemma read_color_value_witness :
  read_color {[ "selected_color" := "#1a2B3c" ]}
  = Ok (16 * 1 + 10, 16 * 2 + 11, 16 * 3 + 12).
Proof.
  apply (read_color_value {[ "selected_color" := "#1a2B3c" ]}
           "1" "a" "2" "B" "3" "c" 1 10 2 11 3 12); reflexivity.
Defined.

Lemma substring_short (s : string) (n m : nat) :
  (String.length s ≤ n)%nat → String.substring n m s = EmptyString.
Proof.
  revert n. induction s as [|c s IH]; intros n Hn.
  - by destruct n, m.
  - destruct n as [|n]; simpl in *; [lia|]. apply IH. lia.
Qed.

Lemma int16_raises (s : string) (e : exn) :
  Py.int16 s = Raise e → e = Py.invalid_literal s.
Proof.
  unfold Py.int16. intros H.
  repeat (case_match; simplify_eq/=; try done).
Qed.

(** X3.  A slot with at most four characters after its leading [#]s --
    the three-digit shorthand [#FFF], or [#] alone -- cannot be read: the
    colour parse raises [ValueError], which the fallback of the compositing
    step does not see, and a pass whose upload decodes and whose
    background is removed ends in the error report with no download. *)
Theorem short_color_is_an_error (pil : Imaging) (svc : Services)
    (ss : session_state) (f : UploadedFile) (crop c : string)
    (input fg : Image) :
  ss !! "selected_color" = Some c →
  (String.length (Py.lstrip "#" c) ≤ 4)%nat →
  Image_open svc (getvalue f) = Ok input →
  rembg_remove svc input = Ok fg →
  ∃ e, read_color ss = Raise e
    ∧ exc_type e = ValueError
    ∧ main_area pil svc ss (Some f) crop
      = st_spinner "Removing background..." :: report_error e
    ∧ downloads (main_area pil svc ss (Some f) crop) = [].
Proof.
  intros Hslot Hlen Hopen Hremove.
  assert (∃ e, read_color ss = Raise e ∧ exc_type e = ValueError) as (e & He & Ht).
  { unfold read_color. rewrite Hslot. simpl. unfold Py.slice.
    rewrite (substring_short _ 4) by done.
    change (2 - 0)%nat with 2%nat. change (4 - 2)%nat with 2%nat.
    destruct (Py.int16 (String.substring 0 2 (Py.lstrip "#" c))) as [r|e] eqn:Hr;
      simpl; [|apply int16_raises in Hr as ->; eauto].
    destruct (Py.int16 (String.substring 2 2 (Py.lstrip "#" c))) as [g|e] eqn:Hg;
      simpl; [|apply int16_raises in Hg as ->; eauto].
    eexists. split; reflexivity. }
  exists e. split; [done|]. split; [done|].
  assert (Hpass : main_area pil svc ss (Some f) crop
                  = st_spinner "Removing background..." :: report_error e).
  { by rewrite (main_area_raise pil svc ss f crop
                  [st_spinner "Removing background..."] e)
      by (by eapply processing_color_fails). }
  by rewrite Hpass.
Qed.

Lemma short_color_is_an_error_witness :
  ∃ e, read_color {[ "selected_color" := "#FFF" ]} = Raise e
    ∧ exc_type e = ValueError
    ∧ main_area Pillow.imaging (Demo.services Demo.cutout None)
        {[ "selected_color" := "#FFF" ]} (Some Demo.photo) "No Crop"
      = st_spinner "Removing background..." :: report_error e
    ∧ downloads (main_area Pillow.imaging (Demo.services Demo.cutout None)
                   {[ "selected_color" := "#FFF" ]} (Some Demo.photo) "No Crop")
      = [].
Proof.
  apply (short_color_is_an_error Pillow.imaging (Demo.services Demo.cutout None)
           {[ "selected_color" := "#FFF" ]} Demo.photo "No Crop" "#FFF"
           Demo.snapshot Demo.cutout).
  - reflexivity.
  - simpl. lia.
  - reflexivity.
  - reflexivity.
Defined.

(** ** What a pass writes *)

Lemma applyBackground_writes_warnings (pil : Imaging) (fg : Image)
    (rgb : Z * Z * Z) (u : ui) :
  u ∈ (applyBackground pil fg rgb).1 → ∃ m, u = st_warning m.
Proof.
  unfold applyBackground, try_except_ValueError, call, emit.
  unfold mbind, M_bind, mret, M_ret.
  intros H.
  repeat (case_match; simplify_eq/=; try done);
    repeat match goal with
           | H : _ ∈ [] |- _ => by apply elem_of_nil in H
           | H : _ ∈ _ :: _ |- _ => apply elem_of_cons in H as [->|H]; [by eauto|]
           end.
Qed.

Lemma omap_warnings {A} (g : ui → option A) (shown : list ui) :
  (∀ m, g (st_warning m) = None) →
  (∀ u, u ∈ shown → ∃ m, u = st_warning m) →
  omap g shown = [].
Proof.
  intros Hg. induction shown as [|u shown IH]; intros H; [done|].
  destruct (H u) as [m ->]; [by left|]. simpl. rewrite Hg.
  apply IH. intros v Hv. apply H. by right.
Qed.

Section PassLog.

Context (pil : Imaging) (svc : Services).

(** The block of the outer [try] shows no traceback itself, offers at most
    one download, and none when it is stopped by an exception. *)
Lemma processing_log ss f crop shown r :
  processing pil svc ss f crop = (shown, r) →
  tracebacks shown = []
  ∧ (length (downloads shown) ≤ 1)%nat
  ∧ (∀ e, r = Raise e → downloads shown = []).
Proof.
  unfold processing, column1, column2, finalizeForExport,
    applyBackground, try_except_ValueError, call, emit.
  unfold mbind, M_bind, mret, M_ret, result_bind.
  intros H.
  repeat (case_match; simplify_eq/=; try done); repeat split; simpl; try lia; done.
Qed.

End PassLog.

Section PassShape.

Context (pil : Imaging) (svc : Services).

(** X4.  Whatever the collaborators do, a pass on an upload offers at most
    one download and shows at most one traceback, never both; the
    traceback shown is that of the exception that stopped the block of the
    outer [try] -- be it raised by decoding, background removal,
    compositing, the crop widget or the export step -- and none is shown
    when the block ran to its end. *)
Theorem pass_outcome (ss : session_state) (f : UploadedFile) (crop : string) :
  let out := main_area pil svc ss (Some f) crop in
  (length (downloads out) ≤ 1)%nat
  ∧ (length (tracebacks out) ≤ 1)%nat
  ∧ (downloads out ≠ [] → tracebacks out = [])
  ∧ (∀ e, e ∈ tracebacks out
          ↔ ∃ shown, processing pil svc ss f crop = (shown, Raise e)).
Proof.
  unfold main_area.
  destruct (processing pil svc ss f crop) as [shown [[]|e]] eqn:Hp; simpl;
    destruct (processing_log pil svc ss f crop _ _ Hp) as (Ht & Hd & Hr).
  - rewrite Ht. repeat split; try done; simpl; try lia.
    + intros H. by apply elem_of_nil in H.
    + by intros [? [=]].
  - unfold tracebacks, downloads in *. rewrite !omap_app, Ht, (Hr e eq_refl).
    simpl. repeat split; try done; try lia.
    + intros H. apply list_elem_of_singleton in H as ->. eauto.
    + intros [shown' [= _ ->]]. by apply list_elem_of_singleton.
Qed.

(** X5.  When a crop option is selected and the crop widget returns
    nothing, the pass shows the widget and the notice that it is waiting;
    it offers no download and reports no error. *)
Theorem waiting_for_crop (ss : session_state) (f : UploadedFile) (crop : string)
    (input fg bg : Image) (rgb : Z * Z * Z) (shown : list ui) :
  String.eqb crop "No Crop" = false →
  Image_open svc (getvalue f) = Ok input →
  rembg_remove svc input = Ok fg →
  read_color ss = Ok rgb →
  applyBackground pil fg rgb = (shown, Ok bg) →
  st_cropper svc bg (aspect_ratio_of crop) (cropper_key (name f) crop) = Ok None →
  main_area pil svc ss (Some f) crop
  = st_spinner "Removing background..." :: shown
      ++ [ st_header "Crop Area (Adjust Box)";
           st_info "Adjust the blue box. The result appears on the right.";
           st_cropper_widget bg (aspect_ratio_of crop) (cropper_key (name f) crop);
           st_header "Final Result";
           st_warning "Waiting for image processing or cropping..." ]
  ∧ downloads (main_area pil svc ss (Some f) crop) = []
  ∧ tracebacks (main_area pil svc ss (Some f) crop) = [].
Proof.
  intros H0 H1 H2 H3 H4 H5.
  assert (Hp : processing pil svc ss f crop
               = (st_spinner "Removing background..." :: shown
                    ++ [ st_header "Crop Area (Adjust Box)";
                         st_info "Adjust the blue box. The result appears on the right.";
                         st_cropper_widget bg (aspect_ratio_of crop)
                           (cropper_key (name f) crop);
                         st_header "Final Result";
                         st_warning "Waiting for image processing or cropping..." ],
                  Ok tt)).
  { unfold processing, column1, column2, call, emit.
    rewrite H1. simpl. rewrite H2. simpl. rewrite H3. simpl. rewrite H4. simpl.
    rewrite H0. simpl. by rewrite H5. }
  rewrite (main_area_ok pil svc ss f crop _ Hp).
  split; [done|].
  assert (Hw : ∀ u, u ∈ shown → ∃ m, u = st_warning m).
  { intros u Hu. apply (applyBackground_writes_warnings pil fg rgb). by rewrite H4. }
  unfold downloads, tracebacks. simpl. rewrite !omap_app.
  rewrite !(omap_warnings _ shown) by done. done.
Qed.

(** X6.  A pass makes a crop widget only when the crop option is not
    [No Crop], and only after decoding, background removal and compositing
    succeeded; the widget gets the composite as its image, the ratio 1:1
    for the square option and 35:45 for the passport option, and the key
    built from the file name and the option. *)
Theorem crop_widget_arguments (ss : session_state) (f : UploadedFile)
    (crop : CropOption) (img : Image) (a : option (Z * Z)) (k : string) :
  (img, a, k) ∈ cropper_widgets (main_area pil svc ss (Some f) (option_label crop)) →
  crop ≠ NoCrop
  ∧ a = option_ratio crop
  ∧ k = cropper_key (name f) (option_label crop)
  ∧ ∃ input fg rgb shown,
      Image_open svc (getvalue f) = Ok input
      ∧ rembg_remove svc input = Ok fg
      ∧ read_color ss = Ok rgb
      ∧ applyBackground pil fg rgb = (shown, Ok img).
Proof.
  unfold main_area, processing, column1, column2, call, emit.
  destruct (Image_open svc (getvalue f)) as [input|e0] eqn:Hopen; simpl;
    [|intros H; by apply elem_of_nil in H].
  destruct (rembg_remove svc input) as [fg|e1] eqn:Hremove; simpl;
    [|intros H; by apply elem_of_nil in H].
  destruct (read_color ss) as [rgb|e2] eqn:Hcolor; simpl;
    [|intros H; by apply elem_of_nil in H].
  destruct (applyBackground pil fg rgb) as [shown [bg|e3]] eqn:Hstep; simpl.
  2:{ unfold cropper_widgets. rewrite omap_app.
      rewrite (omap_warnings _ shown); [|done|].
      - intros H. by apply elem_of_nil in H.
      - intros u Hu. apply (applyBackground_writes_warnings pil fg rgb).
        by rewrite Hstep. }
  assert (Hw : cropper_widgets shown = []).
  { apply omap_warnings; [done|]. intros u Hu.
    apply (applyBackground_writes_warnings pil fg rgb). by rewrite Hstep. }
  intros H.
  assert (Hin : (img, a, k) ∈ [ (bg, aspect_ratio_of (option_label crop),
                                 cropper_key (name f) (option_label crop)) ]
                ∧ crop ≠ NoCrop).
  { revert H. unfold cropper_widgets in *. unfold mbind, M_bind.
    destruct crop; simpl;
      repeat (case_match; simplify_eq/=);
      rewrite ?omap_app, ?Hw; simpl;
      intros Hmem; try (by apply elem_of_nil in Hmem); done. }
  destruct Hin as [Hin Hne]. apply list_elem_of_singleton in Hin as [= -> -> ->].
  split; [done|]. split; [by destruct crop|]. split; [done|].
  by exists input, fg, rgb, shown.
Qed.

End PassShape.

Lemma waiting_for_crop_witness :
  downloads (main_area Pillow.imaging (Demo.services Demo.cutout None)
               Demo.white_state (Some Demo.photo) "1:1 (Square)") = []
  ∧ tracebacks (main_area Pillow.imaging (Demo.services Demo.cutout None)
                  Demo.white_state (Some Demo.photo) "1:1 (Square)") = [].
Proof.
  apply (waiting_for_crop Pillow.imaging (Demo.services Demo.cutout None)
           Demo.white_state Demo.photo "1:1 (Square)" Demo.snapshot Demo.cutout
           Demo.on_white (255, 255, 255) []); reflexivity.
Defined.

Lemma crop_widget_arguments_witness :
  Passport ≠ NoCrop
  ∧ Some (35, 45) = option_ratio Passport
  ∧ "cropper_photo.jpg_35:45 (Passport)"
    = cropper_key (name Demo.photo) (option_label Passport)
  ∧ ∃ input fg rgb shown,
      Image_open (Demo.services Demo.cutout (Some Demo.on_red))
        (getvalue Demo.photo) = Ok input
      ∧ rembg_remove (Demo.services Demo.cutout (Some Demo.on_red)) input = Ok fg
      ∧ read_color Demo.red_state = Ok rgb
      ∧ applyBackground Pillow.imaging fg rgb = (shown, Ok Demo.on_red).
Proof.
  apply (crop_widget_arguments Pillow.imaging
           (Demo.services Demo.cutout (Some Demo.on_red)) Demo.red_state
           Demo.photo Passport Demo.on_red (Some (35, 45))
           "cropper_photo.jpg_35:45 (Passport)").
  vm_compute. constructor.
Defined.

(** ** The composite on the Pillow model *)

Lemma pillow_paste_keeps (self im : Image) (box : Z * Z) (mask : option Image)
    (out : Image) :
  Pillow.paste self im box mask = Ok out →
  im_mode out = im_mode self ∧ im_size out = im_size self.
Proof.
  assert (Hknown : ∀ im', Pillow.paste_known self im' box mask = Ok out →
            im_mode out = im_mode self ∧ im_size out = im_size self).
  { intros im'. unfold Pillow.paste_known. unfold mbind, result_bind.
    intros H. repeat (case_match; simplify_eq/=; try done). }
  unfold Pillow.paste. unfold mbind, result_bind. intros H.
  repeat (case_match; simplify_eq/=; try done); by eapply Hknown.
Qed.

Lemma pillow_new_RGB (size : nat * nat) (rgb : Z * Z * Z) :
  ∃ bg, Pillow.new "RGB" size rgb = Ok bg
      ∧ im_mode bg = "RGB" ∧ im_size bg = size.
Proof. destruct rgb as [[r g] b]. eexists. split; [reflexivity|done]. Qed.

(** X7.  On the Pillow model every image the compositing step returns,
    by the masked paste or by the fallback, is of mode RGB and of the
    foreground's size, whatever the foreground is; so the export step
    saves an uncropped composite as it is, never converting it. *)
Theorem composite_is_RGB (fg out : Image) (rgb : Z * Z * Z) (shown : list ui) :
  applyBackground Pillow.imaging fg rgb = (shown, Ok out) →
  im_mode out = "RGB"
  ∧ im_size out = im_size fg
  ∧ ∀ svc : Services,
      finalizeForExport Pillow.imaging svc out
      = (byte_im ← Image_save svc out "PNG"; Ok (out, byte_im)).
Proof.
  intros Hstep.
  assert (Hout : im_mode out = "RGB" ∧ im_size out = im_size fg).
  { destruct (pillow_new_RGB (im_size fg) rgb) as (bg & Hnew & Hmode & Hsize).
    revert Hstep. unfold applyBackground, try_except_ValueError, call, emit.
    simpl. rewrite Hnew. simpl.
    destruct (Pillow.paste bg fg (0, 0) (Some fg)) as [o|e] eqn:Hm; simpl.
    - intros [= _ ->]. apply pillow_paste_keeps in Hm as [-> ->]. done.
    - destruct (isinstance_ValueError e); [|done]. simpl.
      destruct (Pillow.paste bg fg (0, 0) None) as [o|e'] eqn:Hd; simpl; [|done].
      intros [= _ ->]. apply pillow_paste_keeps in Hd as [-> ->]. done. }
  destruct Hout as [Hmode Hsize]. split; [done|]. split; [done|].
  intros svc. unfold finalizeForExport. by rewrite Hmode.
Qed.

Lemma imap_replicate_rows {A B} (f : nat → A → B) (n : nat) (x : A) (l : list B) :
  length l = n → (∀ i y, l !! i = Some y → f i x = y) →
  imap f (replicate n x) = l.
Proof.
  intros Hlen Hf. apply list_eq. intros i.
  rewrite list_lookup_imap.
  destruct (l !! i) as [y|] eqn:Hy.
  - rewrite lookup_replicate_2 by (apply lookup_lt_Some in Hy; lia).
    simpl. by rewrite (Hf i y).
  - assert (replicate n x !! i = None) as ->; [|done].
    apply lookup_replicate_None. apply lookup_ge_None in Hy. lia.
Qed.

Lemma paste_masked_RGB_raises (bg fg : Image) :
  im_mode bg = "RGB" → im_mode fg = "RGB" →
  Pillow.paste bg fg (0, 0) (Some fg)
  = Raise (Exn ValueError "bad transparency mask").
Proof.
  intros Hbg Hfg.
  rewrite (paste_of_known _ _ _ _ Pillow.RGB) by (by rewrite Hfg).
  unfold Pillow.paste_known. rewrite Hbg, Hfg. simpl.
  rewrite ?Hfg. simpl. by rewrite bool_decide_eq_true_2.
Qed.

Lemma paste_direct_RGB (bg fg : Image) :
  im_mode bg = "RGB" → im_mode fg = "RGB" →
  Pillow.paste bg fg (0, 0) None
  = Ok (mkImage "RGB" (im_size bg)
          (imap (λ y row, imap (λ x d, default d (getpixel fg x y)) row)
             (im_data bg))).
Proof.
  intros Hbg Hfg.
  rewrite (paste_of_known _ _ _ _ Pillow.RGB) by (by rewrite Hfg).
  unfold Pillow.paste_known. rewrite Hbg, Hfg. simpl.
  rewrite ?Hfg. simpl. do 2 f_equal.
  apply imap_pointwise; intros y row. apply imap_pointwise; intros x d.
  rewrite source_pixel_origin. by destruct (getpixel fg x y).
Qed.

(** X8.  On the Pillow model a well-formed foreground of mode RGB, which
    has no alpha band, makes the masked paste fail with [ValueError]; the
    step warns, and the unmasked paste returns the foreground itself: the
    selected colour is nowhere in the result. *)
Theorem fallback_keeps_opaque_foreground (fg : Image) (rgb : Z * Z * Z) :
  im_mode fg = "RGB" → Pillow.wf_image fg →
  applyBackground Pillow.imaging fg rgb
  = ([fallback_warning (Exn ValueError "bad transparency mask")], Ok fg).
Proof.
  intros Hmode (m & _ & Hlen & Hrows).
  destruct (pillow_new_RGB (im_size fg) rgb) as (bg & Hnew & Hbg & Hsize).
  rewrite (applyBackground_fallback Pillow.imaging fg bg rgb
             (Exn ValueError "bad transparency mask"));
    [|done|by apply paste_masked_RGB_raises|done].
  f_equal. change (Pillow.paste bg fg (0, 0) None = Ok fg).
  rewrite paste_direct_RGB by done. f_equal.
  assert (Hdata : im_data bg
                  = replicate (snd (im_size fg))
                      (replicate (fst (im_size fg))
                         (let '(r, g, b) := rgb in
                          [Pillow.clip8 r; Pillow.clip8 g; Pillow.clip8 b]))).
  { destruct rgb as [[r g] b]. by injection Hnew as <-. }
  rewrite Hdata, Hsize.
  destruct fg as [mode [w h] data]. simpl in *. subst mode. f_equal.
  apply imap_replicate_rows; [done|].
  intros y row Hrow.
  rewrite Forall_lookup in Hrows. destruct (Hrows _ _ Hrow) as [Hw _].
  apply imap_replicate_rows; [done|].
  intros x px Hpx.
  unfold getpixel. simpl. rewrite Hrow. simpl. by rewrite Hpx.
Qed.

Lemma composite_is_RGB_witness :
  im_mode Demo.on_red = "RGB"
  ∧ im_size Demo.on_red = im_size Demo.cutout
  ∧ ∀ svc : Services,
      finalizeForExport Pillow.imaging svc Demo.on_red
      = (byte_im ← Image_save svc Demo.on_red "PNG"; Ok (Demo.on_red, byte_im)).
Proof.
  apply (composite_is_RGB Demo.cutout Demo.on_red (255, 0, 0) []).
  reflexivity.
Defined.

Lemma fallback_keeps_opaque_foreground_witness :
  applyBackground Pillow.imaging Demo.opaque (0, 0, 255)
  = ([fallback_warning (Exn ValueError "bad transparency mask")], Ok Demo.opaque).
Proof.
  apply (fallback_keeps_opaque_foreground Demo.opaque (0, 0, 255)).
  - reflexivity.
  - exists Pillow.RGB. repeat first [ lia | split | constructor ].
Defined.

(** ** Names and keys *)

Ltac string_app :=
  repeat first
    [ progress change (String.append EmptyString ?s) with s in *
    | progress change (String.append (String ?c ?s) ?t)
        with (String c (String.append s t)) in * ].

Lemma rsplit_aux_none (sep : ascii) (s : string) :
  Py.contains sep s = false → Py.rsplit_aux sep s = None.
Proof.
  induction s as [|c s IH]; simpl; [done|].
  intros H. apply orb_false_iff in H as [Hc Hs].
  by rewrite IH, Hc.
Qed.

Lemma rsplit_aux_joined (sep : ascii) (base ext : string) :
  Py.contains sep ext = false →
  Py.rsplit_aux sep (base +:+ String sep ext) = Some base.
Proof.
  intros Hext. induction base as [|c base IH]; string_app; simpl.
  - by rewrite rsplit_aux_none, Ascii.eqb_refl.
  - by rewrite IH.
Qed.

(** X9.  For a name made of a base, a dot and an extension without dots,
    the download is named after the base alone -- dots inside the base are
    kept -- so uploads that differ only in their last extension get the
    same download name. *)
Theorem download_name_of_joined (base ext1 ext2 : string) :
  Py.contains "." ext1 = false → Py.contains "." ext2 = false →
  download_filename (base +:+ "." +:+ ext1) = base +:+ "_processed.png"
  ∧ download_filename (base +:+ "." +:+ ext1)
    = download_filename (base +:+ "." +:+ ext2).
Proof.
  intros H1 H2. unfold download_filename, Py.rsplit1_head.
  string_app. by rewrite !rsplit_aux_joined.
Qed.

Lemma append_length (s t : string) :
  String.length (s +:+ t) = (String.length s + String.length t)%nat.
Proof. induction s as [|c s IH]; string_app; simpl; [done|]. by rewrite IH. Qed.

(** Two joined texts that are equal: the longer tail ends with the
    shorter one. *)
Lemma append_eq_tail (s t a b : string) :
  s +:+ a = t +:+ b → (String.length a ≤ String.length b)%nat →
  ∃ x, b = x +:+ a ∧ s = t +:+ x.
Proof.
  revert t. induction s as [|c s IH]; intros t Heq Hlen; string_app.
  - rewrite Heq, append_length in Hlen.
    destruct t as [|c t]; string_app; simpl in *; [by exists EmptyString|lia].
  - destruct t as [|c' t]; string_app.
    + exists (String c s). by rewrite <- Heq.
    + injection Heq as <- Heq.
      destruct (IH t Heq Hlen) as (x & -> & ->). by exists x.
Qed.

Lemma append_nil_r (s : string) : s +:+ EmptyString = s.
Proof. induction s as [|c s IH]; string_app; [done|]. by rewrite IH. Qed.

Lemma append_inj_r (s t a : string) : s +:+ a = t +:+ a → s = t.
Proof.
  intros Heq.
  destruct (append_eq_tail s t a a Heq) as (x & Hx & ->); [lia|].
  assert (String.length x = 0%nat) as Hl.
  { apply (f_equal String.length) in Hx. rewrite append_length in Hx. lia. }
  destruct x; [|discriminate]. by rewrite append_nil_r.
Qed.

(** X10.  For the two options that make a crop widget, the widget key
    determines the file name and the option: uploads of different names,
    or the same upload under the other option, never share a key. *)
Theorem cropper_key_injective (name1 name2 : string) (o1 o2 : CropOption) :
  o1 ≠ NoCrop → o2 ≠ NoCrop →
  cropper_key name1 (option_label o1) = cropper_key name2 (option_label o2) →
  name1 = name2 ∧ o1 = o2.
Proof.
  intros H1 H2. unfold cropper_key. string_app. intros [= Heq].
  destruct o1, o2; try done; simpl in Heq.
  - split; [|done]. by apply append_inj_r in Heq.
  - exfalso.
    destruct (append_eq_tail _ _ _ _ Heq) as (x & Hx & _); [simpl; lia|].
    assert (String.length x = 4%nat) as Hl.
    { apply (f_equal String.length) in Hx. rewrite append_length in Hx.
      simpl in Hx. lia. }
    destruct x as [|? [|? [|? [|? [|? ?]]]]]; discriminate.
  - exfalso. symmetry in Heq.
    destruct (append_eq_tail _ _ _ _ Heq) as (x & Hx & _); [simpl; lia|].
    assert (String.length x = 4%nat) as Hl.
    { apply (f_equal String.length) in Hx. rewrite append_length in Hx.
      simpl in Hx. lia. }
    destruct x as [|? [|? [|? [|? [|? ?]]]]]; discriminate.
  - split; [|done]. by apply append_inj_r in Heq.
Qed.

Lemma download_name_of_joined_witness :
  download_filename ("holiday.2024" +:+ "." +:+ "jpeg")
  = "holiday.2024" +:+ "_processed.png"
  ∧ download_filename ("holiday.2024" +:+ "." +:+ "jpeg")
    = download_filename ("holiday.2024" +:+ "." +:+ "png").
Proof.
  apply (download_name_of_joined "holiday.2024" "jpeg" "png"); reflexivity.
Defined.

Lemma cropper_key_injective_witness :
  "a_b.png" = "a_b.png" ∧ Passport = Passport.
Proof.
  apply (cropper_key_injective "a_b.png" "a_b.png" Passport Passport);
    [discriminate|discriminate|reflexivity].
Defined.

(** ** From the colour slot to the downloaded file *)

Lemma applyBackground_alpha (fg : Image) (m : Pillow.pmode) (r g b : Z) :
  has_transparency_channel fg = true →
  Pillow.mode_of_name (im_mode fg) = Some m →
  0 ≤ r ≤ 255 → 0 ≤ g ≤ 255 → 0 ≤ b ≤ 255 →
  applyBackground Pillow.imaging fg (r, g, b)
  = ([], Ok (composite_image m fg (r, g, b))).
Proof.
  intros Halpha Hm Hr Hg Hb.
  pose proof (transparency_modes fg m Halpha Hm) as Hmode.
  set (bg := mkImage "RGB" (im_size fg)
               (replicate (snd (im_size fg))
                  (replicate (fst (im_size fg)) [r; g; b]))).
  apply applyBackground_masked with (bg := bg).
  - simpl. unfold Pillow.new. simpl. by rewrite !clip8_id.
  - change (Pillow.paste bg fg (0, 0) (Some fg) = Ok (composite_image m fg (r, g, b))).
    by rewrite (paste_masked_alpha m).
Qed.

(** X11.  On the Pillow model with a lossless PNG codec: when the upload
    decodes, background removal returns a well-formed image with an alpha
    band, the colour slot is valid and the composite can be saved, the
    pass without cropping offers one download whose bytes decode to an RGB
    image of the foreground's size in which every pixel is the blend of
    the slot's colour and the foreground pixel by the foreground's alpha. *)
Theorem pass_end_to_end (svc : Services) (ss : session_state) (f : UploadedFile)
    (input fg : Image) (m : Pillow.pmode) (r g b : Z) (byte_im : list Byte.byte) :
  png_lossless svc →
  Image_open svc (getvalue f) = Ok input →
  rembg_remove svc input = Ok fg →
  has_transparency_channel fg = true →
  Pillow.wf_image fg →
  Pillow.mode_of_name (im_mode fg) = Some m →
  color_invariant ss →
  read_color ss = Ok (r, g, b) →
  Image_save svc (composite_image m fg (r, g, b)) "PNG" = Ok byte_im →
  downloads (main_area Pillow.imaging svc ss (Some f) "No Crop")
  = [ {| dl_label := "4. Download Final Image";
         dl_data := byte_im;
         dl_file_name := download_filename (name f);
         dl_mime := "image/png" |} ]
  ∧ ∃ decoded,
      Image_open svc byte_im = Ok decoded
      ∧ im_mode decoded = "RGB"
      ∧ im_size decoded = im_size fg
      ∧ ∀ x y px, getpixel fg x y = Some px →
          getpixel decoded x y
          = Some (zip_with (Pillow.blend (Pillow.alpha_of m px)) [r; g; b]
                    (Pillow.rgb_of m px)).
Proof.
  intros Hpng Hopen Hremove Halpha Hwf Hm Hinv Hcolor Hsave.
  destruct (read_color_valid ss Hinv) as (r' & g' & b' & Heq & Hr & Hg & Hb).
  rewrite Hcolor in Heq. injection Heq as <- <- <-.
  pose proof (applyBackground_alpha fg m r g b Halpha Hm Hr Hg Hb) as Hstep.
  set (out := composite_image m fg (r, g, b)) in *.
  assert (Hexport : finalizeForExport Pillow.imaging svc out = Ok (out, byte_im)).
  { unfold finalizeForExport. simpl. by rewrite Hsave. }
  split.
  - by rewrite (main_area_no_crop Pillow.imaging svc ss f input fg (r, g, b)
                  [] out out byte_im).
  - exists out. split; [by apply Hpng; auto|]. split; [done|]. split; [done|].
    intros x y px Hpx.
    destruct Hwf as (m' & Hm' & Hlen & Hrows).
    assert (Hxy : (x < fst (im_size fg))%nat ∧ (y < snd (im_size fg))%nat).
    { unfold getpixel in Hpx.
      destruct (im_data fg !! y) as [row|] eqn:Hrow; simpl in Hpx; [|done].
      rewrite Forall_lookup in Hrows. destruct (Hrows _ _ Hrow) as [Hw _].
      apply lookup_lt_Some in Hrow, Hpx. lia. }
    destruct Hxy as [Hx Hy]. unfold out, composite_image.
    destruct (im_size fg) as [w h] eqn:Hsize. simpl in Hx, Hy.
    change (w, h) with
      (im_size (mkImage "RGB" (w, h) (replicate h (replicate w [r; g; b])))) at 1.
    simpl snd. simpl fst.
    apply getpixel_composite; [|done].
    by apply getpixel_filled.
Qed.

Lemma pass_end_to_end_witness :
  downloads (main_area Pillow.imaging (Demo.services Demo.cutout None)
               Demo.white_state (Some Demo.photo) "No Crop")
  = [ {| dl_label := "4. Download Final Image";
         dl_data := Demo.png Byte.x01;
         dl_file_name := download_filename (name Demo.photo);
         dl_mime := "image/png" |} ]
  ∧ ∃ decoded,
      Image_open (Demo.services Demo.cutout None) (Demo.png Byte.x01) = Ok decoded
      ∧ im_mode decoded = "RGB"
      ∧ im_size decoded = im_size Demo.cutout
      ∧ ∀ x y px, getpixel Demo.cutout x y = Some px →
          getpixel decoded x y
          = Some (zip_with (Pillow.blend (Pillow.alpha_of Pillow.RGBA px))
                    [255; 255; 255] (Pillow.rgb_of Pillow.RGBA px)).
Proof.
  apply (pass_end_to_end (Demo.services Demo.cutout None) Demo.white_state
           Demo.photo Demo.snapshot Demo.cutout Pillow.RGBA 255 255 255
           (Demo.png Byte.x01)).
  - apply demo_png_lossless.
  - reflexivity.
  - reflexivity.
  - reflexivity.
  - exists Pillow.RGBA. repeat first [ lia | split | constructor ].
  - reflexivity.
  - exists "#FFFFFF". split; reflexivity.
  - reflexivity.
  - reflexivity.
Defined.

(** ** What a pass takes from the session state *)

(** X12.  A pass takes nothing from the session state but the colour
    slot: two states with the same slot give the same pass, whatever else
    they hold -- in particular the value stored under the picker's key,
    which may lag behind after a preset click, has no influence. *)
Theorem pass_reads_slot_only (pil : Imaging) (svc : Services)
    (ss ss' : session_state) (file : option UploadedFile) (crop : string) :
  ss !! "selected_color" = ss' !! "selected_color" →
  main_area pil svc ss file crop = main_area pil svc ss' file crop.
Proof.
  intros Hslot. unfold main_area, processing.
  by rewrite (read_color_slot ss ss' Hslot).
Qed.

Lemma pass_reads_slot_only_witness :
  main_area Pillow.imaging (Demo.services Demo.cutout None)
    {[ "selected_color" := "#FF0000"; "color_picker_value" := "#123456" ]}
    (Some Demo.photo) "No Crop"
  = main_area Pillow.imaging (Demo.services Demo.cutout None) Demo.red_state
      (Some Demo.photo) "No Crop".
Proof.
  apply (pass_reads_slot_only Pillow.imaging (Demo.services Demo.cutout None)
           {[ "selected_color" := "#FF0000"; "color_picker_value" := "#123456" ]}
           Demo.red_state (Some Demo.photo) "No Crop").
  reflexivity.
Defined.
